(** * go-mock: the collection request handler over the JSON document store

    A shallow embedding of [cmd/go-mock] (the file that declares [Server],
    [NewServer], [handleCollection], [findItemIndex], [handleGet],
    [handlePost], [handlePut] and [handleDelete]) and the properties of
    its request handling.

    What is modelled, and how:
    - [interface{}] values as the inductive [value]: the dynamic types
      that [encoding/json] produces, plus the Go [int] that the handlers
      themselves store under ["id"];
    - [map[string]interface{}] as [gmap string value], a Go map that may
      be nil as [option (gmap ..)], a slice that may be nil as [slice];
    - a run-time panic (failed type assertion, write to a nil map) as the
      outcome [Panicked]: [net/http] recovers it and the client gets no
      response;
    - the JSON text codec and the file system are collaborators: a request
      carries the result of decoding its body, [saveData] fails when the
      environment says so, [NewServer] takes the file system and the
      decoder as arguments;
    - the logger only writes, so it is left out. *)

From Stdlib Require Import ZArith Ascii String.
From Stdlib Require Import Floats.SpecFloat.
From stdpp Require Import base option list strings gmap.

#[local] Set Warnings "-register-all".

Local Open Scope string_scope.
Local Open Scope list_scope.
Local Open Scope Z_scope.

(** ** Values *)

(** A Go [float64] as an IEEE 754 datum: a signed zero, an infinity, a
    NaN, or the number [(-1)^s * m * 2^e]. *)
Definition float64 : Type := spec_float.

(** The dynamic types an [interface{}] holds in this program. *)
Inductive value : Type :=
| VNil
| VBool (b : bool)
| VFloat64 (f : float64)
| VString (s : string)
| VSlice (l : list value)
| VMap (m : gmap string value)
| VInt (n : Z).

(** A Go map value: [None] is the nil map. *)
Definition gomap (V : Type) : Type := option (gmap string V).

(** A Go slice of [interface{}]: nil, or a (possibly empty) sequence. *)
Inductive slice : Type :=
| NilSlice
| Slice (l : list value).

Definition elems (s : slice) : list value :=
  match s with
  | NilSlice => []
  | Slice l => l
  end.

(** [len(s)] *)
Definition len (s : slice) : Z := Z.of_nat (length (elems s)).

(** [append(s, v)]: the result is never nil. *)
Definition append (s : slice) (v : value) : slice := Slice (elems s ++ [v]).

(** [v, ok := m[k]] *)
Definition map_index {V : Type} (m : gomap V) (k : string) : option V :=
  match m with
  | None => None
  | Some g => g !! k
  end.

(** [m[k]] with the zero value (the nil slice) for an absent key. *)
Definition index_slice (m : gomap slice) (k : string) : slice :=
  match map_index m k with
  | Some s => s
  | None => NilSlice
  end.

(** [m[k] = v]: panics ([None]) on the nil map. *)
Definition map_assign {V : Type} (m : gomap V) (k : string) (v : V)
  : option (gmap string V) :=
  match m with
  | None => None
  | Some g => Some (<[k := v]> g)
  end.

(** ** Integers *)

Definition min_int : Z := - 2 ^ 63.
Definition max_int : Z := 2 ^ 63 - 1.

(** [int(f)] for a [float64]: the fraction is discarded.  Outside the
    range of [int] the language leaves the result to the implementation;
    this is amd64's (the "integer indefinite" value). *)
Definition int_of_float64 (f : float64) : Z :=
  match f with
  | S754_zero _ => 0
  | S754_finite sgn m e =>
      let mag := Z.shiftl (Z.pos m) e in
      let v := if sgn then - mag else mag in
      if (min_int <=? v) && (v <=? max_int) then v else min_int
  | _ => min_int
  end.

(** The [float64] that decoding the JSON number [n] gives, for a small
    integer [n] (exact below 2^53). *)
Definition float64_of_Z (n : Z) : float64 :=
  match n with
  | Z0 => S754_zero false
  | Z.pos p => S754_finite false p 0
  | Z.neg p => S754_finite true p 0
  end.

(** ** strconv.Atoi *)

Definition is_digit (c : ascii) : bool :=
  let n := Z.of_nat (nat_of_ascii c) in (48 <=? n) && (n <=? 57).

Definition digit_value (c : ascii) : Z := Z.of_nat (nat_of_ascii c) - 48.

Fixpoint digits (acc : Z) (s : string) : option Z :=
  match s with
  | EmptyString => Some acc
  | String c s' =>
      if is_digit c then digits (acc * 10 + digit_value c) s' else None
  end.

(** An optional sign, then one or more decimal digits, the value within
    the 64-bit [int]; [None] is the error result. *)
Definition Atoi (s : string) : option Z :=
  match s with
  | EmptyString => None
  | String c rest =>
      let neg := Ascii.eqb c "-" in
      let ds := if neg || Ascii.eqb c "+" then rest else s in
      match ds with
      | EmptyString => None
      | _ =>
          match digits 0 ds with
          | None => None
          | Some n =>
              let v := if neg then - n else n in
              if (min_int <=? v) && (v <=? max_int) then Some v else None
          end
      end
  end.

(** ** strings.Trim(s, "/") and strings.Split(s, "/") *)

Fixpoint TrimLeft (s : string) : string :=
  match s with
  | String c s' => if Ascii.eqb c "/" then TrimLeft s' else s
  | EmptyString => EmptyString
  end.

Fixpoint TrimRight (s : string) : string :=
  match s with
  | EmptyString => EmptyString
  | String c s' =>
      match TrimRight s' with
      | EmptyString => if Ascii.eqb c "/" then EmptyString else String c EmptyString
      | t => String c t
      end
  end.

Definition Trim (s : string) : string := TrimRight (TrimLeft s).

Fixpoint Split (s : string) : list string :=
  match s with
  | EmptyString => [EmptyString]
  | String c s' =>
      if Ascii.eqb c "/" then EmptyString :: Split s'
      else match Split s' with
           | h :: t => String c h :: t
           | [] => [String c EmptyString]
           end
  end.

(** ** The server and its requests *)

(** [type Server struct { data; filename; logger }], without the logger. *)
Record Server : Type := mkServer {
  data : gomap slice;
  filename : string
}.

Definition with_data (s : Server) (d : gmap string slice) : Server :=
  {| data := Some d; filename := filename s |}.

(** What [json.NewDecoder(r.Body).Decode(&m)] leaves in a
    [var m map[string]interface{}]: an error, or no error with [m] the
    nil map (the body [null]) or a map (the body is a JSON object). *)
Inductive decoded : Type :=
| DecodeError (err : string)
| Decoded (m : gomap value).

Record Request : Type := mkRequest {
  Method : string;
  Path : string;
  Body : decoded
}.

Definition StatusOK : Z := 200.
Definition StatusCreated : Z := 201.
Definition StatusBadRequest : Z := 400.
Definition StatusNotFound : Z := 404.
Definition StatusMethodNotAllowed : Z := 405.
Definition StatusInternalServerError : Z := 500.

(** What the handler wrote to the [http.ResponseWriter]. *)
Inductive payload : Type :=
| Text (msg : string)                 (* http.Error(w, msg, status) *)
| EncodedItems (items : slice)        (* json.NewEncoder(w).Encode(items) *)
| EncodedItem (item : gmap string value) (* json.NewEncoder(w).Encode(itemMap) *)
| NoBody.

Record response : Type := mkResponse {
  status : Z;
  body : payload
}.

Inductive outcome : Type :=
| Respond (r : response)
| Panicked.

Definition http_Error (msg : string) (code : Z) : outcome :=
  Respond {| status := code; body := Text msg |}.

(** ** The handlers *)

(** The loop of [findItemIndex], from index [i] on.  [Some (Some i)] is
    [(i, true)], [Some None] is [(-1, false)], [None] is a panic of
    [item.(map[string]interface{})] or of [itemMap["id"].(float64)]. *)
Fixpoint findItemIndex_loop (items : list value) (i : nat) (id : Z)
  : option (option nat) :=
  match items with
  | [] => Some None
  | VMap itemMap :: rest =>
      match itemMap !! "id" with
      | Some (VFloat64 f) =>
          if int_of_float64 f =? id then Some (Some i)
          else findItemIndex_loop rest (S i) id
      | _ => None
      end
  | _ :: _ => None
  end.

Definition findItemIndex (s : Server) (collection : string) (id : Z)
  : option (option nat) :=
  findItemIndex_loop (elems (index_slice (data s) collection)) 0 id.

(** The loop of [handleGet] over [items]. *)
Fixpoint handleGet_loop (items : list value) (id : Z) : outcome :=
  match items with
  | [] => http_Error "Item not found" StatusNotFound
  | VMap itemMap :: rest =>
      match itemMap !! "id" with
      | Some (VFloat64 f) =>
          if int_of_float64 f =? id
          then Respond {| status := StatusOK; body := EncodedItem itemMap |}
          else handleGet_loop rest id
      | _ => Panicked
      end
  | _ :: _ => Panicked
  end.

Definition handleGet (s : Server) (collection : string) (parts : list string)
  : outcome :=
  match map_index (data s) collection with
  | None => http_Error "Collection not found" StatusNotFound
  | Some items =>
      match parts with
      | _ :: tok :: _ =>
          match Atoi tok with
          | None => http_Error "Invalid ID" StatusBadRequest
          | Some id => handleGet_loop (elems items) id
          end
      | _ => Respond {| status := StatusOK; body := EncodedItems items |}
      end
  end.

(** [saveData() != nil]: [save_fails] is the environment's answer, whether
    [json.MarshalIndent] or [ioutil.WriteFile] returns an error. *)
Definition saveData (s : Server) (save_fails : bool) : bool := save_fails.

Definition save_failed : outcome :=
  http_Error "Failed to save data" StatusInternalServerError.

Definition handlePost (s : Server) (save_fails : bool) (r : Request)
  (collection : string) : Server * outcome :=
  match Body r with
  | DecodeError err => (s, http_Error err StatusBadRequest)
  | Decoded newItem =>
      let assigned :=
        match map_index newItem "id" with
        | Some _ => newItem
        | None =>
            map_assign newItem "id" (VInt (len (index_slice (data s) collection) + 1))
        end in
      match assigned with
      | None => (s, Panicked)
      | Some newItem =>
          match map_assign (data s) collection
                  (append (index_slice (data s) collection) (VMap newItem)) with
          | None => (s, Panicked)
          | Some d =>
              let s' := with_data s d in
              if saveData s' save_fails then (s', save_failed)
              else (s', Respond {| status := StatusCreated;
                                   body := EncodedItem newItem |})
          end
      end
  end.

Definition handlePut (s : Server) (save_fails : bool) (r : Request)
  (collection : string) (parts : list string) : Server * outcome :=
  match parts with
  | _ :: tok :: _ =>
      match Atoi tok with
      | None => (s, http_Error "Invalid ID" StatusBadRequest)
      | Some id =>
          match Body r with
          | DecodeError err => (s, http_Error err StatusBadRequest)
          | Decoded updatedItem =>
              match findItemIndex s collection id with
              | None => (s, Panicked)
              | Some None => (s, http_Error "Item not found" StatusNotFound)
              | Some (Some idx) =>
                  (* updatedItem["id"] = id, then s.data[collection][idx] =
                     updatedItem: a write through the slice stored in the map *)
                  match map_assign updatedItem "id" (VInt id), data s with
                  | Some updatedItem, Some d =>
                      let items := elems (index_slice (data s) collection) in
                      let s' := with_data s
                        (<[collection := Slice (<[idx := VMap updatedItem]> items)]> d) in
                      if saveData s' save_fails then (s', save_failed)
                      else (s', Respond {| status := StatusOK;
                                           body := EncodedItem updatedItem |})
                  | _, _ => (s, Panicked)
                  end
              end
          end
      end
  | _ => (s, http_Error "ID required" StatusBadRequest)
  end.

Definition handleDelete (s : Server) (save_fails : bool)
  (collection : string) (parts : list string) : Server * outcome :=
  match parts with
  | _ :: tok :: _ =>
      match Atoi tok with
      | None => (s, http_Error "Invalid ID" StatusBadRequest)
      | Some id =>
          match findItemIndex s collection id with
          | None => (s, Panicked)
          | Some None => (s, http_Error "Item not found" StatusNotFound)
          | Some (Some idx) =>
              let items := elems (index_slice (data s) collection) in
              match map_assign (data s) collection
                      (Slice (take idx items ++ drop (S idx) items)) with
              | None => (s, Panicked)
              | Some d =>
                  let s' := with_data s d in
                  if saveData s' save_fails then (s', save_failed)
                  else (s', Respond {| status := StatusOK; body := NoBody |})
              end
          end
      end
  | _ => (s, http_Error "ID required" StatusBadRequest)
  end.

Definition handleCollection (s : Server) (save_fails : bool) (r : Request)
  : Server * outcome :=
  let parts := Split (Trim (Path r)) in
  match parts with
  | [] => (s, Panicked)
  | collection :: _ =>
      if String.eqb (Method r) "GET" then (s, handleGet s collection parts)
      else if String.eqb (Method r) "POST" then handlePost s save_fails r collection
      else if String.eqb (Method r) "PUT" then handlePut s save_fails r collection parts
      else if String.eqb (Method r) "DELETE" then handleDelete s save_fails collection parts
      else (s, http_Error "Method not allowed" StatusMethodNotAllowed)
  end.

(** [NewServer]: [open] is [os.Open] followed by [ioutil.ReadAll] (whose
    error the code drops), [unmarshal] is [json.Unmarshal] into the fresh
    map; either returns its error on the left. *)
Definition NewServer (open : string -> string + list Byte.byte)
  (unmarshal : list Byte.byte -> string + gomap slice) (fname : string)
  : string + Server :=
  match open fname with
  | inl err => inl err
  | inr byteValue =>
      match unmarshal byteValue with
      | inl err => inl err
      | inr d => inr {| data := d; filename := fname |}
      end
  end.

(** [Run] up to the point where it hands the server to
    [http.ListenAndServe]: an error of [NewServer] is returned wrapped and
    nothing is served. *)
Definition Run (open : string -> string + list Byte.byte)
  (unmarshal : list Byte.byte -> string + gomap slice) (fname : string)
  : string + Server :=
  match NewServer open unmarshal fname with
  | inl err => inl ("error initializing server: " ++ err)%string
  | inr server => inr server
  end.

(** ** JSON documents and [json.Unmarshal] *)

(** A JSON document, as the syntax step of [encoding/json] reads it;
    object members in the order of the text. *)
Inductive json : Type :=
| JNull
| JBool (b : bool)
| JNumber (f : float64)
| JString (s : string)
| JArray (l : list json)
| JObject (members : list (string * json)).

(** What [encoding/json] stores into an [interface{}]: [nil], [bool],
    [float64], [string], [[]interface{}], [map[string]interface{}]; of
    two members with one name the later one stays. *)
Fixpoint to_interface (j : json) : value :=
  match j with
  | JNull => VNil
  | JBool b => VBool b
  | JNumber f => VFloat64 f
  | JString s => VString s
  | JArray l => VSlice (map to_interface l)
  | JObject members =>
      VMap (fold_left (fun m p => <[fst p := to_interface (snd p)]> m) members ∅)
  end.

Definition kind_name (j : json) : string :=
  match j with
  | JNull => "null"
  | JBool _ => "bool"
  | JNumber _ => "number"
  | JString _ => "string"
  | JArray _ => "array"
  | JObject _ => "object"
  end.

(** What it stores into a [[]interface{}]: the nil slice for [null], the
    elements for an array, and for anything else nothing, with an
    [UnmarshalTypeError]. *)
Definition to_slice (j : json) : string + slice :=
  match j with
  | JNull => inr NilSlice
  | JArray l => inr (Slice (map to_interface l))
  | _ => inl ("json: cannot unmarshal " ++ kind_name j
              ++ " into Go value of type []interface {}")%string
  end.

(** The members of an object, stored one after the other into the map
    [m]; the first type error is the error returned. *)
Fixpoint store_members (members : list (string * json)) (m : gmap string slice)
  : string + gmap string slice :=
  match members with
  | [] => inr m
  | (k, j) :: rest =>
      match to_slice j with
      | inl err => inl err
      | inr sl => store_members rest (<[k := sl]> m)
      end
  end.

(** What it stores into the fresh [map[string][]interface{}] of
    [NewServer]: [null] sets the map to nil and is no error. *)
Definition unmarshal_store (j : json) : string + gomap slice :=
  match j with
  | JNull => inr None
  | JObject members =>
      match store_members members ∅ with
      | inl err => inl err
      | inr m => inr (Some m)
      end
  | _ => inl ("json: cannot unmarshal " ++ kind_name j
              ++ " into Go value of type map[string][]interface {}")%string
  end.

(** [json.Unmarshal(byteValue, &server.data)]: [parse] is the syntax
    step, from the bytes to the document or a syntax error. *)
Definition Unmarshal (parse : list Byte.byte -> string + json)
  (byteValue : list Byte.byte) : string + gomap slice :=
  match parse byteValue with
  | inl err => inl err
  | inr j => unmarshal_store j
  end.

(** ** Vocabulary of the statements *)

(** The identifier a lookup reads off a record,
    [int(item.(map[string]interface{})["id"].(float64))]; [None] where
    one of the two type assertions panics. *)
Definition item_id (v : value) : option Z :=
  match v with
  | VMap itemMap =>
      match itemMap !! "id" with
      | Some (VFloat64 f) => Some (int_of_float64 f)
      | _ => None
      end
  | _ => None
  end.

(** The record a JSON object decodes to, field by field. *)
Definition object (fields : list (string * value)) : gmap string value :=
  list_to_map fields.

Definition number (n : Z) : value := VFloat64 (float64_of_Z n).

(** The [db.json] of the README, decoded. *)
Definition first_post : value :=
  VMap (object [("id", number 1); ("title", VString "First Post")]).

Definition first_user : value :=
  VMap (object [("id", number 1); ("name", VString "Aaron Dennis")]).

Definition readme_db : gmap string slice :=
  <["posts" := Slice [first_post] ]> (<["users" := Slice [first_user] ]> ∅).

Definition readme_server : Server :=
  {| data := Some readme_db; filename := "db.json" |}.

Definition GET (path : string) : Request :=
  {| Method := "GET"; Path := path; Body := Decoded None |}.

Definition DELETE (path : string) : Request :=
  {| Method := "DELETE"; Path := path; Body := Decoded None |}.

Definition POST (path : string) (fields : list (string * value)) : Request :=
  {| Method := "POST"; Path := path; Body := Decoded (Some (object fields)) |}.

Definition PUT (path : string) (fields : list (string * value)) : Request :=
  {| Method := "PUT"; Path := path; Body := Decoded (Some (object fields)) |}.

(** A sequence of requests, each with the environment's answer for its
    save, from left to right; the outcomes in the same order. *)
Fixpoint serve (s : Server) (rs : list (bool * Request)) : Server * list outcome :=
  match rs with
  | [] => (s, [])
  | (save_fails, r) :: rs' =>
      let '(s1, o) := handleCollection s save_fails r in
      let '(s2, os) := serve s1 rs' in
      (s2, o :: os)
  end.

(** A file system with the single file [db.json], whose content is the
    two bytes of the empty JSON object, and a decoder that knows that one
    document. *)
Definition disk_with_db (f : string) : string + list Byte.byte :=
  if String.eqb f "db.json" then inr [Byte.x7b; Byte.x7d] else inl "no such file".

Definition unmarshal_braces (b : list Byte.byte) : string + gomap slice :=
  match b with
  | [Byte.x7b; Byte.x7d] => inr (Some ∅)
  | _ => inl "unexpected end of JSON input"
  end.

(** A collection [items] whose records have the ids 1, 2, 3 in that
    order. *)
Definition record (n : Z) : value := VMap (object [("id", number n)]).

Definition items_server : Server :=
  {| data := Some {[ "items" := Slice [record 1; record 2; record 3] ]};
     filename := "db.json" |}.

(** A collection in which the id 2 occurs twice. *)
Definition tagged (n : Z) (tag : string) : gmap string value :=
  object [("id", number n); ("tag", VString tag)].

Definition dup_db : gmap string slice :=
  {[ "items" := Slice [record 1; VMap (tagged 2 "a"); VMap (tagged 2 "b")] ]}.

Definition dup_server : Server :=
  {| data := Some dup_db; filename := "db.json" |}.

(** A store with the one, empty, collection [posts]. *)
Definition empty_posts_server : Server :=
  {| data := Some {[ "posts" := Slice [] ]}; filename := "db.json" |}.

(** A file system with the single file [db.json] whose content is the
    four bytes [null], and the syntax of the documents [null] and [{}]. *)
Definition disk_with_null (f : string) : string + list Byte.byte :=
  if String.eqb f "db.json"
  then inr [Byte.x6e; Byte.x75; Byte.x6c; Byte.x6c]
  else inl "no such file".

Definition parse_null_or_braces (b : list Byte.byte) : string + json :=
  match b with
  | [Byte.x6e; Byte.x75; Byte.x6c; Byte.x6c] => inr JNull
  | [Byte.x7b; Byte.x7d] => inr (JObject [])
  | _ => inl "invalid character"
  end.


(** The record [handlePost] stores for a body that decoded to the map
    [u]: [u] itself when it has an ["id"], else [u] with the count-based
    id. *)
Definition posted (s : Server) (c : string) (u : gmap string value)
  : gmap string value :=
  match u !! "id" with
  | Some _ => u
  | None => <["id" := VInt (len (index_slice (data s) c) + 1)]> u
  end.

(** A path segment: a string without the separator. *)
Fixpoint no_slash (s : string) : bool :=
  match s with
  | EmptyString => true
  | String c s' => negb (Ascii.eqb c "/") && no_slash s'
  end.

(** The records of a collection all carry a [float64] under ["id"], as
    they do when each was decoded from a JSON object with a numeric id. *)
Definition numeric_ids (items : list value) : Prop :=
  Forall (fun v => is_Some (item_id v)) items.

(** No record of [items] has the id [id] (and each has a [float64] id). *)
Definition id_free (id : Z) (items : list value) : Prop :=
  Forall (fun v => exists x, item_id v = Some x /\ x <> id) items.

(** [POST /c] with a body that decodes to the record [u]. *)
Definition post_to (c : string) (u : gmap string value) : Request :=
  {| Method := "POST"; Path := String "/" c; Body := Decoded (Some u) |}.

(** The outcomes that come with an untouched store. *)
Definition refusal (o : outcome) : Prop :=
  o = Panicked \/
  exists msg code, o = http_Error msg code /\
    (code = StatusBadRequest \/ code = StatusNotFound \/
     code = StatusMethodNotAllowed).

(** The status the client sees; [None] when the handler panicked and no
    response was written. *)
Definition status_of (o : outcome) : option Z :=
  match o with
  | Respond r => Some (status r)
  | Panicked => None
  end.

(** * Properties *)

(** ** Dispatch *)

Section Dispatch.
Context (s : Server) (save_fails : bool) (r : Request).
Context (collection : string) (rest : list string).
Hypothesis Hparts : Split (Trim (Path r)) = collection :: rest.

Lemma handleCollection_GET :
  Method r = "GET" ->
  handleCollection s save_fails r = (s, handleGet s collection (collection :: rest)).
Proof. intros Hm. unfold handleCollection. by rewrite Hparts, Hm. Qed.

Lemma handleCollection_POST :
  Method r = "POST" ->
  handleCollection s save_fails r = handlePost s save_fails r collection.
Proof. intros Hm. unfold handleCollection. by rewrite Hparts, Hm. Qed.

Lemma handleCollection_PUT :
  Method r = "PUT" ->
  handleCollection s save_fails r
  = handlePut s save_fails r collection (collection :: rest).
Proof. intros Hm. unfold handleCollection. by rewrite Hparts, Hm. Qed.

Lemma handleCollection_DELETE :
  Method r = "DELETE" ->
  handleCollection s save_fails r
  = handleDelete s save_fails collection (collection :: rest).
Proof. intros Hm. unfold handleCollection. by rewrite Hparts, Hm. Qed.
End Dispatch.

(** [strings.Split] never returns the empty list, so [parts[0]] exists. *)
Lemma Split_nonempty (p : string) : Split p <> [].
Proof. destruct p as [|c p]; simpl; [done|]. by destruct (Ascii.eqb c "/"), (Split p). Qed.

(** ** The two lookup loops *)

Lemma findItemIndex_loop_cons (v : value) (items : list value) (i : nat) (id : Z) :
  findItemIndex_loop (v :: items) i id
  = match item_id v with
    | None => None
    | Some n => if n =? id then Some (Some i) else findItemIndex_loop items (S i) id
    end.
Proof.
  destruct v as [| | | | |m|]; simpl; try done.
  by destruct (m !! "id") as [[]|].
Qed.

Lemma handleGet_loop_cons (v : value) (items : list value) (id : Z) :
  handleGet_loop (v :: items) id
  = match v, item_id v with
    | VMap itemMap, Some n =>
        if n =? id
        then Respond {| status := StatusOK; body := EncodedItem itemMap |}
        else handleGet_loop items id
    | _, _ => Panicked
    end.
Proof.
  destruct v as [| | | | |m|]; simpl; try done.
  by destruct (m !! "id") as [[]|].
Qed.

(** A successful scan stops at the first record whose id is the target:
    every record before it was read and had another id. *)
Lemma findItemIndex_loop_Some (items : list value) (i n : nat) (id : Z) :
  findItemIndex_loop items i id = Some (Some n) ->
  exists k : nat,
    n = (i + k)%nat /\
    items !! k ≫= item_id = Some id /\
    forall j : nat, (j < k)%nat ->
      exists x, items !! j ≫= item_id = Some x /\ x <> id.
Proof.
  revert i. induction items as [|v items IH]; intros i; [done|].
  rewrite findItemIndex_loop_cons.
  destruct (item_id v) as [x|] eqn:Hv; [|done].
  destruct (Z.eqb_spec x id) as [->|Hne].
  - intros [= <-]. exists 0%nat. split; [lia|]. split; [by simpl|]. lia.
  - intros Hrec. destruct (IH _ Hrec) as (k & -> & Hk & Hlt).
    exists (S k). split; [lia|]. split; [done|].
    intros [|j] Hj; simpl; [by exists x|]. apply Hlt. lia.
Qed.

(** An unsuccessful scan read every record and none had the target id. *)
Lemma findItemIndex_loop_None (items : list value) (i : nat) (id : Z) :
  findItemIndex_loop items i id = Some None ->
  Forall (fun v => exists x, item_id v = Some x /\ x <> id) items.
Proof.
  revert i. induction items as [|v items IH]; intros i; [by constructor|].
  rewrite findItemIndex_loop_cons.
  destruct (item_id v) as [x|] eqn:Hv; [|done].
  destruct (Z.eqb_spec x id) as [->|Hne]; [done|].
  intros Hrec. constructor; [by exists x|]. by eapply IH.
Qed.


(** The scan of [handleGet] is the scan of [findItemIndex]. *)
Lemma handleGet_loop_findItemIndex (items : list value) (i : nat) (id : Z) :
  handleGet_loop items id
  = match findItemIndex_loop items i id with
    | None => Panicked
    | Some None => http_Error "Item not found" StatusNotFound
    | Some (Some n) =>
        match items !! (n - i)%nat with
        | Some (VMap itemMap) =>
            Respond {| status := StatusOK; body := EncodedItem itemMap |}
        | _ => Panicked
        end
    end.
Proof.
  revert i. induction items as [|v items IH]; intros i; [done|].
  rewrite handleGet_loop_cons, findItemIndex_loop_cons.
  destruct v as [| | | | |m|]; try done.
  destruct (item_id (VMap m)) as [x|]; [|done].
  destruct (x =? id).
  - by rewrite Nat.sub_diag.
  - rewrite (IH (S i)). destruct (findItemIndex_loop items (S i) id) as [[n|]|] eqn:Hf; try done.
    apply findItemIndex_loop_Some in Hf as (k & -> & _).
    by replace (S i + k - i)%nat with (S k) by lia; replace (S i + k - S i)%nat with k by lia.
Qed.

(** ** What the three mutating handlers do once they reach the store *)

(** A successful [findItemIndex] means that the collection is a key of a
    non-nil store, and pins down the index it returns. *)
Lemma findItemIndex_found (s : Server) (c : string) (id : Z) (idx : nat) :
  findItemIndex s c id = Some (Some idx) ->
  exists (d : gmap string slice) (items : list value),
    data s = Some d /\ d !! c = Some (Slice items) /\
    items !! idx ≫= item_id = Some id /\
    forall j : nat, (j < idx)%nat ->
      exists x, items !! j ≫= item_id = Some x /\ x <> id.
Proof.
  unfold findItemIndex, index_slice, map_index.
  destruct (data s) as [d|]; [|done].
  destruct (d !! c) as [[|items]|] eqn:Hc; try done. simpl.
  intros (k & -> & Hk & Hlt)%findItemIndex_loop_Some.
  by exists d, items.
Qed.

Lemma index_slice_lookup (d : gmap string slice) (c : string) (sl : slice) :
  d !! c = Some sl -> index_slice (Some d) c = sl.
Proof. intros H. unfold index_slice, map_index. by rewrite H. Qed.

Section Mutations.
Context (s : Server) (save_fails : bool) (c : string).
Context (d : gmap string slice).
Hypothesis Hdata : data s = Some d.

Lemma handlePost_stores (r : Request) (u : gmap string value) :
  Body r = Decoded (Some u) ->
  handlePost s save_fails r c
  = (with_data s
       (<[c := append (index_slice (data s) c) (VMap (posted s c u))]> d),
     if save_fails then save_failed
     else Respond {| status := StatusCreated;
                     body := EncodedItem (posted s c u) |}).
Proof.
  intros Hb. unfold handlePost, posted. rewrite Hb, Hdata. simpl.
  destruct (u !! "id"); simpl; unfold saveData; by destruct save_fails.
Qed.

Context (items : list value) (tok : string) (rest : list string).
Context (id : Z) (idx : nat).
Hypothesis Hc : d !! c = Some (Slice items).
Hypothesis Htok : Atoi tok = Some id.
Hypothesis Hfound : findItemIndex s c id = Some (Some idx).

Lemma handlePut_replaces (r : Request) (u : gmap string value) :
  Body r = Decoded (Some u) ->
  handlePut s save_fails r c (c :: tok :: rest)
  = (with_data s (<[c := Slice (<[idx := VMap (<["id" := VInt id]> u)]> items)]> d),
     if save_fails then save_failed
     else Respond {| status := StatusOK;
                     body := EncodedItem (<["id" := VInt id]> u) |}).
Proof.
  intros Hb. unfold handlePut. rewrite Htok, Hb, Hfound, Hdata. simpl.
  rewrite (index_slice_lookup _ _ _ Hc). simpl.
  unfold saveData. by destruct save_fails.
Qed.

Lemma handleDelete_removes :
  handleDelete s save_fails c (c :: tok :: rest)
  = (with_data s (<[c := Slice (take idx items ++ drop (S idx) items)]> d),
     if save_fails then save_failed
     else Respond {| status := StatusOK; body := NoBody |}).
Proof.
  unfold handleDelete. rewrite Htok, Hfound, Hdata. simpl.
  rewrite (index_slice_lookup _ _ _ Hc). simpl.
  unfold saveData. by destruct save_fails.
Qed.
End Mutations.

(** ** GET of a whole collection (claim C7) *)

(** C7.  For [GET /{c}]: when [c] is not a key of the store the response
    is 404 "Collection not found", whatever the other collections hold;
    when [c] is a key mapped to the empty sequence the response is 200
    with that empty sequence encoded; the two responses differ. *)
Theorem C7_get_absent_vs_empty (s : Server) (save_fails : bool) (r : Request)
  (c : string) :
  Method r = "GET" ->
  Split (Trim (Path r)) = [c] ->
  (map_index (data s) c = None ->
   handleCollection s save_fails r
   = (s, http_Error "Collection not found" StatusNotFound)) /\
  (map_index (data s) c = Some (Slice []) ->
   handleCollection s save_fails r
   = (s, Respond {| status := StatusOK; body := EncodedItems (Slice []) |})) /\
  http_Error "Collection not found" StatusNotFound
  <> Respond {| status := StatusOK; body := EncodedItems (Slice []) |}.
Proof.
  intros Hm Hp. rewrite (handleCollection_GET _ _ _ _ _ Hp Hm).
  unfold handleGet. split; [|split].
  - by intros ->.
  - by intros ->.
  - done.
Qed.

Lemma C7_get_absent_vs_empty_witness :
  (handleCollection readme_server false (GET "/comments")
   = (readme_server, http_Error "Collection not found" StatusNotFound)) /\
  (handleCollection (with_data readme_server (<["comments" := Slice [] ]> readme_db))
     false (GET "/comments")
   = (with_data readme_server (<["comments" := Slice [] ]> readme_db),
      Respond {| status := StatusOK; body := EncodedItems (Slice []) |})).
Proof.
  split.
  - apply (C7_get_absent_vs_empty readme_server false (GET "/comments") "comments");
      reflexivity.
  - apply (C7_get_absent_vs_empty
             (with_data readme_server (<["comments" := Slice [] ]> readme_db))
             false (GET "/comments") "comments");
      reflexivity.
Defined.

(** ** Identifier tokens that do not parse (claim C1) *)

(** C1, as the code has it.  On a single-item route whose identifier
    token [Atoi] rejects, [PUT] and [DELETE] answer 400 "Invalid ID"
    without consulting the store, whatever it holds.  [GET] looks the
    collection up first: it answers 400 "Invalid ID" when the collection
    is a key of the store and 404 "Collection not found" when it is not.
    The store is unchanged in every case. *)
Theorem C1_invalid_id (s : Server) (save_fails : bool) (r : Request)
  (c tok : string) (rest : list string) :
  Split (Trim (Path r)) = c :: tok :: rest ->
  Atoi tok = None ->
  (Method r = "PUT" \/ Method r = "DELETE" ->
   handleCollection s save_fails r = (s, http_Error "Invalid ID" StatusBadRequest)) /\
  (Method r = "GET" ->
   handleCollection s save_fails r
   = (s, match map_index (data s) c with
         | Some _ => http_Error "Invalid ID" StatusBadRequest
         | None => http_Error "Collection not found" StatusNotFound
         end)).
Proof.
  intros Hp Htok. split.
  - intros [Hm|Hm].
    + rewrite (handleCollection_PUT _ _ _ _ _ Hp Hm). unfold handlePut. by rewrite Htok.
    + rewrite (handleCollection_DELETE _ _ _ _ _ Hp Hm). unfold handleDelete.
      by rewrite Htok.
  - intros Hm. rewrite (handleCollection_GET _ _ _ _ _ Hp Hm). unfold handleGet.
    destruct (map_index (data s) c); [|done]. by rewrite Htok.
Qed.

Lemma C1_invalid_id_witness :
  handleCollection readme_server false (DELETE "/posts/abc")
  = (readme_server, http_Error "Invalid ID" StatusBadRequest) /\
  handleCollection readme_server false (GET "/posts/1x")
  = (readme_server, http_Error "Invalid ID" StatusBadRequest).
Proof.
  split.
  - exact (proj1 (C1_invalid_id readme_server false (DELETE "/posts/abc")
                    "posts" "abc" [] eq_refl eq_refl) (or_intror eq_refl)).
  - exact (proj2 (C1_invalid_id readme_server false (GET "/posts/1x")
                    "posts" "1x" [] eq_refl eq_refl) eq_refl).
Defined.

(** C1 as stated fails for [GET]: with the README's store, which has no
    collection [comments], [GET /comments/abc] has a token that does not
    parse and is answered 404, not 400. *)
Lemma C1_get_unknown_collection_404 :
  Split (Trim (Path (GET "/comments/abc"))) = ["comments"; "abc"] /\
  Atoi "abc" = None /\
  map_index (data readme_server) "comments" = None /\
  handleCollection readme_server false (GET "/comments/abc")
  = (readme_server, http_Error "Collection not found" StatusNotFound) /\
  status_of (snd (handleCollection readme_server false (GET "/comments/abc")))
  = Some 404 /\
  (404 =? StatusBadRequest) = false.
Proof. repeat split; reflexivity. Qed.

(** ** Start-up *)

(** Whatever the decoder: [NewServer] returns an error when the file
    cannot be opened and when its content does not unmarshal, and in both
    cases [Run] returns an error and serves nothing.  There is no
    fallback store: [NewServer] succeeds only when the file opened and
    its content unmarshalled, and then the server's store is exactly what
    was unmarshalled. *)
Theorem NewServer_outcomes (open : string -> string + list Byte.byte)
  (unmarshal : list Byte.byte -> string + gomap slice) (fname : string) :
  (forall err, open fname = inl err ->
     NewServer open unmarshal fname = inl err /\
     exists e, Run open unmarshal fname = inl e) /\
  (forall bytes err, open fname = inr bytes -> unmarshal bytes = inl err ->
     NewServer open unmarshal fname = inl err /\
     exists e, Run open unmarshal fname = inl e) /\
  (forall bytes d, open fname = inr bytes -> unmarshal bytes = inr d ->
     NewServer open unmarshal fname = inr {| data := d; filename := fname |}) /\
  (forall server, NewServer open unmarshal fname = inr server ->
     exists bytes, open fname = inr bytes /\ unmarshal bytes = inr (data server)).
Proof.
  unfold Run, NewServer. split; [|split; [|split]].
  - intros err ->. eauto.
  - intros bytes err -> ->. eauto.
  - by intros bytes d -> ->.
  - intros server. destruct (open fname) as [e|bytes]; [done|].
    destruct (unmarshal bytes) as [e|d] eqn:Hu; [done|].
    intros [= <-]. by exists bytes.
Qed.

Lemma NewServer_outcomes_witness :
  NewServer disk_with_db unmarshal_braces "missing.json" = inl "no such file" /\
  NewServer disk_with_db unmarshal_braces "db.json"
  = inr {| data := Some ∅; filename := "db.json" |}.
Proof.
  split.
  - exact (proj1 (proj1 (NewServer_outcomes disk_with_db unmarshal_braces "missing.json")
                    _ eq_refl)).
  - exact (proj1 (proj2 (proj2 (NewServer_outcomes disk_with_db unmarshal_braces "db.json")))
             _ _ eq_refl eq_refl).
Defined.

(** ** Replace *)

(** X24.  For [PUT /{c}/{id}] with a token that parses to [id], a body
    that decodes to the record [u], and [findItemIndex] returning
    [(idx, true)] for [id] in [c]: the sequence of [c] is the old one with the
    element at [idx] replaced by [u] with ["id"] set to the path id; that
    record has the path id whatever ["id"] the body had, and every other
    field is exactly the body's (so a field the body omits is absent,
    whatever the old record held); no other element of [c] changes; when
    the save succeeds the response is 200 with that record as its body. *)
Theorem put_full_replace_when_found (s : Server) (save_fails : bool) (r : Request)
  (c tok : string) (rest : list string) (id : Z) (idx : nat)
  (u : gmap string value) :
  Method r = "PUT" ->
  Split (Trim (Path r)) = c :: tok :: rest ->
  Atoi tok = Some id ->
  Body r = Decoded (Some u) ->
  findItemIndex s c id = Some (Some idx) ->
  exists (d : gmap string slice) (items : list value) (new : gmap string value),
    data s = Some d /\ d !! c = Some (Slice items) /\
    new = <["id" := VInt id]> u /\
    new !! "id" = Some (VInt id) /\
    (forall k : string, k <> "id" -> new !! k = u !! k) /\
    handleCollection s save_fails r
    = (with_data s (<[c := Slice (<[idx := VMap new]> items)]> d),
       if save_fails then save_failed
       else Respond {| status := StatusOK; body := EncodedItem new |}) /\
    (<[idx := VMap new]> items) !! idx = Some (VMap new) /\
    length (<[idx := VMap new]> items) = length items /\
    (forall j : nat, j <> idx -> (<[idx := VMap new]> items) !! j = items !! j).
Proof.
  intros Hm Hp Htok Hb Hfound.
  destruct (findItemIndex_found _ _ _ _ Hfound) as (d & items & Hd & Hc & Hidx & _).
  exists d, items, (<["id" := VInt id]> u).
  split; [done|]. split; [done|]. split; [done|].
  split; [by rewrite lookup_insert_eq|].
  split; [by intros k Hk; rewrite lookup_insert_ne|].
  split.
  { rewrite (handleCollection_PUT _ _ _ _ _ Hp Hm).
    by apply handlePut_replaces. }
  split.
  { apply list_lookup_insert_eq. apply lookup_lt_is_Some.
    destruct (items !! idx); [by eexists | done]. }
  split; [by rewrite length_insert|].
  intros j Hj. by rewrite list_lookup_insert_ne.
Qed.

Lemma put_full_replace_when_found_witness :
  handleCollection readme_server false (PUT "/posts/1" [("id", number 7); ("body", VNil)])
  = (with_data readme_server
       (<["posts" := Slice [VMap (object [("id", VInt 1); ("body", VNil)])] ]> readme_db),
     Respond {| status := StatusOK;
                body := EncodedItem (object [("id", VInt 1); ("body", VNil)]) |}).
Proof.
  destruct (put_full_replace_when_found readme_server false
              (PUT "/posts/1" [("id", number 7); ("body", VNil)])
              "posts" "1" [] 1 0%nat (object [("id", number 7); ("body", VNil)])
              eq_refl eq_refl eq_refl eq_refl eq_refl)
    as (d & items & new & Hd & Hc & -> & _ & _ & -> & _).
  injection Hd as <-. vm_compute in Hc. injection Hc as <-.
  vm_compute. reflexivity.
Defined.

(** ** Delete *)

Lemma take_drop_middle_lookup {A : Type} (l : list A) (i : nat) (x : A) :
  l !! i = Some x -> l = take i l ++ x :: drop (S i) l.
Proof. intros H. symmetry. by apply take_drop_middle. Qed.

(** X25.  For [DELETE /{c}/{id}] with a token that parses to [id] and
    [findItemIndex] returning [(idx, true)] for [id] in [c]: the old sequence is
    [before ++ v :: after] where [v] has the id [id] and no record of
    [before] has it, and the new sequence of [c] is [before ++ after]:
    one record fewer, the first match, the others in their order.  Every
    other collection is untouched, and when the save succeeds the
    response is 200 with no body. *)
Theorem delete_first_match_when_found (s : Server) (save_fails : bool) (r : Request)
  (c tok : string) (rest : list string) (id : Z) (idx : nat) :
  Method r = "DELETE" ->
  Split (Trim (Path r)) = c :: tok :: rest ->
  Atoi tok = Some id ->
  findItemIndex s c id = Some (Some idx) ->
  exists (d : gmap string slice) (before after : list value) (v : value),
    data s = Some d /\ d !! c = Some (Slice (before ++ v :: after)) /\
    length before = idx /\
    item_id v = Some id /\
    Forall (fun w => exists x, item_id w = Some x /\ x <> id) before /\
    handleCollection s save_fails r
    = (with_data s (<[c := Slice (before ++ after)]> d),
       if save_fails then save_failed
       else Respond {| status := StatusOK; body := NoBody |}) /\
    S (length (before ++ after)) = length (before ++ v :: after) /\
    (forall c' : string, c' <> c ->
       (<[c := Slice (before ++ after)]> d) !! c' = d !! c').
Proof.
  intros Hm Hp Htok Hfound.
  destruct (findItemIndex_found _ _ _ _ Hfound) as (d & items & Hd & Hc & Hidx & Hlt).
  destruct (items !! idx) as [v|] eqn:Hv; [simpl in Hidx|done].
  assert (Hlen : (idx < length items)%nat) by (by eapply lookup_lt_Some).
  exists d, (take idx items), (drop (S idx) items), v.
  rewrite <- (take_drop_middle_lookup _ _ _ Hv).
  split; [done|]. split; [done|].
  split; [rewrite length_take; lia|].
  split; [done|].
  split.
  { apply Forall_forall. intros w Hw. apply list_elem_of_lookup in Hw as [j Hj].
    apply lookup_take_Some in Hj as [Hj Hji].
    destruct (Hlt j Hji) as (x & Hx & Hne). rewrite Hj in Hx. by exists x. }
  split.
  { rewrite (handleCollection_DELETE _ _ _ _ _ Hp Hm).
    by eapply handleDelete_removes. }
  split.
  { rewrite length_app, length_take, length_drop. lia. }
  intros c' Hc'. by rewrite lookup_insert_ne.
Qed.

Lemma delete_first_match_when_found_witness :
  exists d : gmap string slice,
    handleCollection items_server false (DELETE "/items/2")
    = (with_data items_server d, Respond {| status := StatusOK; body := NoBody |}) /\
    d !! "items" = Some (Slice [record 1; record 3]).
Proof.
  destruct (delete_first_match_when_found items_server false (DELETE "/items/2")
              "items" "2" [] 2 1%nat eq_refl eq_refl eq_refl eq_refl)
    as (d & before & after & v & Hd & Hc & Hlen & _ & _ & Hr & _).
  injection Hd as <-. vm_compute in Hc.
  destruct before as [|b0 [|b1 before]]; try discriminate Hlen.
  injection Hc as <- <- <-.
  eexists. split; [exact Hr|]. apply lookup_insert_eq.
Defined.

(** ** Duplicate ids *)

Lemma item_id_is_map (v : value) (id : Z) :
  item_id v = Some id -> exists m, v = VMap m.
Proof. destruct v; try done. eauto. Qed.



(** ** A failed save (claim C6) *)

(** C6.  When the save fails after [POST], [PUT] or [DELETE] has changed
    the store, the response is 500 "Failed to save data" and the server
    keeps the changed store: a following [GET /{c}] is answered from it,
    with the appended, replaced or removed record. *)
Theorem C6_failed_save_keeps_mutation (s : Server) (d : gmap string slice)
  (c : string) (rest : list string) (r g : Request) :
  data s = Some d ->
  Split (Trim (Path r)) = c :: rest ->
  Method g = "GET" ->
  Split (Trim (Path g)) = [c] ->
  (forall u : gmap string value,
     Method r = "POST" -> Body r = Decoded (Some u) ->
     serve s [(true, r); (false, g)]
     = (with_data s (<[c := append (index_slice (data s) c) (VMap (posted s c u))]> d),
        [http_Error "Failed to save data" StatusInternalServerError;
         Respond {| status := StatusOK;
                    body := EncodedItems
                              (append (index_slice (data s) c) (VMap (posted s c u))) |}])) /\
  (forall (tok : string) (rest' : list string) (id : Z) (idx : nat)
          (items : list value),
     rest = tok :: rest' -> Atoi tok = Some id ->
     d !! c = Some (Slice items) ->
     findItemIndex s c id = Some (Some idx) ->
     (forall u : gmap string value,
        Method r = "PUT" -> Body r = Decoded (Some u) ->
        serve s [(true, r); (false, g)]
        = (with_data s (<[c := Slice (<[idx := VMap (<["id" := VInt id]> u)]> items)]> d),
           [http_Error "Failed to save data" StatusInternalServerError;
            Respond {| status := StatusOK;
                       body := EncodedItems
                                 (Slice (<[idx := VMap (<["id" := VInt id]> u)]> items)) |}])) /\
     (Method r = "DELETE" ->
      serve s [(true, r); (false, g)]
      = (with_data s (<[c := Slice (take idx items ++ drop (S idx) items)]> d),
         [http_Error "Failed to save data" StatusInternalServerError;
          Respond {| status := StatusOK;
                     body := EncodedItems
                               (Slice (take idx items ++ drop (S idx) items)) |}]))).
Proof.
  intros Hd Hp Hg Hgp.
  assert (Hget : forall x, handleCollection (with_data s (<[c := x]> d)) false g
                 = (with_data s (<[c := x]> d),
                    Respond {| status := StatusOK; body := EncodedItems x |})).
  { intros x. rewrite (handleCollection_GET _ _ _ _ _ Hgp Hg).
    unfold handleGet. simpl. by rewrite lookup_insert_eq. }
  split.
  - intros u Hm Hb. simpl.
    rewrite (handleCollection_POST _ _ _ _ _ Hp Hm).
    rewrite (handlePost_stores _ _ _ _ Hd _ _ Hb). by rewrite Hget.
  - intros tok rest' id idx items -> Htok Hc Hfound. split.
    + intros u Hm Hb. simpl.
      rewrite (handleCollection_PUT _ _ _ _ _ Hp Hm).
      rewrite (handlePut_replaces _ _ _ _ Hd _ _ _ _ _ Hc Htok Hfound _ _ Hb).
      by rewrite Hget.
    + intros Hm. simpl.
      rewrite (handleCollection_DELETE _ _ _ _ _ Hp Hm).
      rewrite (handleDelete_removes _ _ _ _ Hd _ _ _ _ _ Hc Htok Hfound).
      by rewrite Hget.
Qed.

Lemma C6_failed_save_keeps_mutation_witness :
  serve items_server [(true, DELETE "/items/2"); (false, GET "/items")]
  = (with_data items_server {[ "items" := Slice [record 1; record 3] ]},
     [http_Error "Failed to save data" StatusInternalServerError;
      Respond {| status := StatusOK;
                 body := EncodedItems (Slice [record 1; record 3]) |}]).
Proof.
  refine (eq_trans
    (proj2 (proj2 (C6_failed_save_keeps_mutation items_server
                     {[ "items" := Slice [record 1; record 2; record 3] ]}
                     "items" ["2"] (DELETE "/items/2") (GET "/items")
                     eq_refl eq_refl eq_refl eq_refl)
              "2" [] 2 1%nat [record 1; record 2; record 3]
              eq_refl eq_refl eq_refl eq_refl) eq_refl) _).
  vm_compute. reflexivity.
Defined.

(** ** Collection keys are never removed (claim C10) *)

Lemma map_index_insert_is_Some (d : gmap string slice) (c k : string) (x : slice) :
  is_Some (map_index (Some d) k) -> is_Some (map_index (Some (<[c := x]> d)) k).
Proof.
  simpl. intros Hk. destruct (decide (c = k)) as [->|Hne].
  - rewrite lookup_insert_eq. by eexists.
  - by rewrite lookup_insert_ne.
Qed.

Lemma handlePost_keys (s : Server) (sf : bool) (r : Request) (c k : string) :
  is_Some (map_index (data s) k) ->
  is_Some (map_index (data (fst (handlePost s sf r c))) k).
Proof.
  intros Hk. unfold handlePost.
  destruct (Body r) as [err|newItem]; [done|].
  destruct (match map_index newItem "id" with
            | Some _ => newItem
            | None => map_assign newItem "id"
                        (VInt (len (index_slice (data s) c) + 1))
            end) as [item|]; [|done].
  destruct (data s) as [d|] eqn:Hd; simpl; [|by rewrite Hd].
  unfold saveData. destruct sf; simpl; by apply map_index_insert_is_Some.
Qed.

Lemma handlePut_keys (s : Server) (sf : bool) (r : Request) (c k : string)
  (parts : list string) :
  is_Some (map_index (data s) k) ->
  is_Some (map_index (data (fst (handlePut s sf r c parts))) k).
Proof.
  intros Hk. unfold handlePut.
  destruct parts as [|p0 [|tok parts]]; try done.
  destruct (Atoi tok) as [id|]; [|done].
  destruct (Body r) as [err|u]; [done|].
  destruct (findItemIndex s c id) as [[idx|]|]; try done.
  destruct (map_assign u "id" (VInt id)) as [u'|]; [|done].
  destruct (data s) as [d|] eqn:Hd; simpl; [|by rewrite Hd].
  unfold saveData. destruct sf; simpl; by apply map_index_insert_is_Some.
Qed.

Lemma handleDelete_keys (s : Server) (sf : bool) (c k : string)
  (parts : list string) :
  is_Some (map_index (data s) k) ->
  is_Some (map_index (data (fst (handleDelete s sf c parts))) k).
Proof.
  intros Hk. unfold handleDelete.
  destruct parts as [|p0 [|tok parts]]; try done.
  destruct (Atoi tok) as [id|]; [|done].
  destruct (findItemIndex s c id) as [[idx|]|]; try done.
  destruct (data s) as [d|] eqn:Hd; simpl; [|by rewrite Hd].
  unfold saveData. destruct sf; simpl; by apply map_index_insert_is_Some.
Qed.

(** C10.  A collection name that is a key of the store before a request
    is a key after it, whatever the request and however it ends.  When
    [DELETE] removes the only record of [c], the key stays, mapped to the
    empty sequence, and a following [GET /{c}] is answered 200 with the
    empty sequence, not 404. *)
Theorem C10_keys_stay :
  (forall (s : Server) (save_fails : bool) (r : Request) (k : string),
     is_Some (map_index (data s) k) ->
     is_Some (map_index (data (fst (handleCollection s save_fails r))) k)) /\
  (forall (s : Server) (d : gmap string slice) (c tok : string)
          (rest : list string) (id : Z) (v : value) (r g : Request)
          (save_fails : bool),
     data s = Some d -> d !! c = Some (Slice [v]) -> item_id v = Some id ->
     Method r = "DELETE" -> Split (Trim (Path r)) = c :: tok :: rest ->
     Atoi tok = Some id ->
     Method g = "GET" -> Split (Trim (Path g)) = [c] ->
     serve s [(save_fails, r); (false, g)]
     = (with_data s (<[c := Slice [] ]> d),
        [if save_fails then save_failed
         else Respond {| status := StatusOK; body := NoBody |};
         Respond {| status := StatusOK; body := EncodedItems (Slice []) |}])).
Proof.
  split.
  - intros s sf r k Hk. unfold handleCollection.
    destruct (Split (Trim (Path r))) as [|c parts]; [done|].
    destruct (String.eqb (Method r) "GET"); [done|].
    destruct (String.eqb (Method r) "POST"); [by apply handlePost_keys|].
    destruct (String.eqb (Method r) "PUT"); [by apply handlePut_keys|].
    destruct (String.eqb (Method r) "DELETE"); [by apply handleDelete_keys|].
    done.
  - intros s d c tok rest id v r g sf Hd Hc Hv Hm Hp Htok Hg Hgp.
    assert (Hfound : findItemIndex s c id = Some (Some 0%nat)).
    { unfold findItemIndex. rewrite Hd, (index_slice_lookup _ _ _ Hc).
      cbn [elems]. rewrite findItemIndex_loop_cons, Hv. by rewrite Z.eqb_refl. }
    simpl. rewrite (handleCollection_DELETE _ _ _ _ _ Hp Hm).
    rewrite (handleDelete_removes _ _ _ _ Hd _ _ _ _ _ Hc Htok Hfound). simpl.
    rewrite (handleCollection_GET _ _ _ _ _ Hgp Hg).
    unfold handleGet. simpl. by rewrite lookup_insert_eq.
Qed.

Lemma C10_keys_stay_witness :
  is_Some (map_index
             (data (fst (handleCollection readme_server false (DELETE "/posts/1"))))
             "posts") /\
  serve readme_server [(false, DELETE "/posts/1"); (false, GET "/posts")]
  = (with_data readme_server (<["posts" := Slice [] ]> readme_db),
     [Respond {| status := StatusOK; body := NoBody |};
      Respond {| status := StatusOK; body := EncodedItems (Slice []) |}]).
Proof.
  split.
  - apply (proj1 C10_keys_stay readme_server false (DELETE "/posts/1") "posts").
    by eexists.
  - exact (proj2 C10_keys_stay readme_server readme_db "posts" "1" [] 1 first_post
             (DELETE "/posts/1") (GET "/posts") false
             eq_refl eq_refl eq_refl eq_refl eq_refl eq_refl eq_refl eq_refl).
Defined.

(** ** Identifier assignment by [POST] *)

(** The assignment policy of [handlePost] on a non-nil store, for a body
    that decoded to the record [u].  Without an ["id"], [u] gets the
    length of the collection before the insert plus one, as a Go [int];
    with an ["id"], [u] is taken as it is, no record of the collection
    being looked at.  Either way the record goes to the end. *)
Lemma handlePost_count_based (s : Server) (save_fails : bool) (r : Request)
  (c : string) (d : gmap string slice) (u : gmap string value) :
  data s = Some d ->
  Body r = Decoded (Some u) ->
  let old := elems (index_slice (data s) c) in
  (u !! "id" = None ->
   handlePost s save_fails r c
   = (with_data s
        (<[c := Slice (old ++ [VMap (<["id" := VInt (Z.of_nat (length old) + 1)]> u)])]> d),
      if save_fails then save_failed
      else Respond {| status := StatusCreated;
                      body := EncodedItem
                                (<["id" := VInt (Z.of_nat (length old) + 1)]> u) |})) /\
  (is_Some (u !! "id") ->
   handlePost s save_fails r c
   = (with_data s (<[c := Slice (old ++ [VMap u])]> d),
      if save_fails then save_failed
      else Respond {| status := StatusCreated; body := EncodedItem u |})).
Proof.
  intros Hd Hb old. rewrite (handlePost_stores _ _ _ _ Hd _ _ Hb).
  unfold posted, append, len. fold old. split.
  - by intros ->.
  - by intros [x ->].
Qed.

(** With a record whose id came from the file (a [float64]), the policy
    shows: delete the only record, post again, and the new record is
    given the id 1 once more. *)
Example post_after_delete_reuses_id :
  serve readme_server
    [(false, DELETE "/posts/1"); (false, POST "/posts" [("title", VString "x")])]
  = (with_data readme_server
       (<["posts" := Slice [VMap (object [("id", VInt 1); ("title", VString "x")])] ]>
          readme_db),
     [Respond {| status := StatusOK; body := NoBody |};
      Respond {| status := StatusCreated;
                 body := EncodedItem (object [("id", VInt 1); ("title", VString "x")]) |}]).
Proof. vm_compute. reflexivity. Qed.

(** ** Lookups after the server has stored an id itself (claims C2, C3) *)

(** A record whose ["id"] is a Go [int] makes the scan panic as soon as
    the scan reaches it. *)
Lemma findItemIndex_loop_int_id (items : list value) (i : nat) (id n : Z)
  (m : gmap string value) :
  findItemIndex_loop items i id = Some None ->
  m !! "id" = Some (VInt n) ->
  findItemIndex_loop (items ++ [VMap m]) i id = None.
Proof.
  revert i. induction items as [|v items IH]; intros i Hnone Hm.
  - simpl. by rewrite Hm.
  - rewrite <- app_comm_cons, findItemIndex_loop_cons.
    rewrite findItemIndex_loop_cons in Hnone.
    destruct (item_id v) as [x|]; [|done].
    destruct (x =? id); [done|]. by apply IH.
Qed.

(** C2, at the code: after a [POST] whose body has no ["id"], the record
    appended carries a Go [int] under ["id"].  If a lookup of [id] in
    that collection came back "not found" before the [POST], then after
    it [findItemIndex] panics on the new record, and [GET /{c}/{id}]
    panics too: no response is written.  This includes the id the [POST]
    has just assigned. *)
Theorem C2_lookup_panics_after_auto_id (s : Server) (d : gmap string slice)
  (c : string) (rest : list string) (r : Request) (u : gmap string value)
  (save_fails : bool) (id : Z) :
  data s = Some d ->
  Method r = "POST" ->
  Split (Trim (Path r)) = c :: rest ->
  Body r = Decoded (Some u) ->
  u !! "id" = None ->
  findItemIndex s c id = Some None ->
  findItemIndex (fst (handleCollection s save_fails r)) c id = None /\
  forall (g : Request) (sf : bool) (tok : string) (rest' : list string),
    Method g = "GET" -> Split (Trim (Path g)) = c :: tok :: rest' ->
    Atoi tok = Some id ->
    snd (handleCollection (fst (handleCollection s save_fails r)) sf g) = Panicked.
Proof.
  intros Hd Hm Hp Hb Hu Hnone.
  rewrite (handleCollection_POST _ _ _ _ _ Hp Hm).
  destruct (handlePost_count_based s save_fails r c d u Hd Hb) as [Hpost _].
  rewrite (Hpost Hu). simpl.
  set (old := elems (index_slice (data s) c)) in *.
  set (new := <["id" := VInt (Z.of_nat (length old) + 1)]> u).
  assert (Hloop : findItemIndex_loop (old ++ [VMap new]) 0 id = None).
  { apply (findItemIndex_loop_int_id _ _ _ (Z.of_nat (length old) + 1));
      [exact Hnone | apply lookup_insert_eq]. }
  split.
  - unfold findItemIndex, index_slice. simpl. by rewrite lookup_insert_eq.
  - intros g sf tok rest' Hg Hgp Htok.
    rewrite (handleCollection_GET _ _ _ _ _ Hgp Hg). simpl.
    unfold handleGet. simpl. rewrite lookup_insert_eq, Htok. simpl.
    by rewrite (handleGet_loop_findItemIndex _ 0 id), Hloop.
Qed.

Lemma C2_lookup_panics_after_auto_id_witness :
  findItemIndex
    (fst (handleCollection empty_posts_server false
            (POST "/posts" [("title", VString "x")]))) "posts" 1 = None /\
  snd (handleCollection
         (fst (handleCollection empty_posts_server false
                 (POST "/posts" [("title", VString "x")])))
         false (GET "/posts/1")) = Panicked.
Proof.
  destruct (C2_lookup_panics_after_auto_id empty_posts_server
              {[ "posts" := Slice [] ]} "posts" []
              (POST "/posts" [("title", VString "x")])
              (object [("title", VString "x")]) false 1
              eq_refl eq_refl eq_refl eq_refl eq_refl eq_refl) as [Hf Hg].
  split; [exact Hf|].
  exact (Hg (GET "/posts/1") false "1" [] eq_refl eq_refl eq_refl).
Defined.

(** The same happens after [PUT], which stores the path id as a Go
    [int]: the README's update of post 1, then a read of post 1. *)
Example lookup_panics_after_put :
  serve readme_server
    [(false, PUT "/posts/1" [("title", VString "Updated Post")]);
     (false, GET "/posts/1")]
  = (with_data readme_server
       (<["posts" := Slice [VMap (object [("id", VInt 1);
                                          ("title", VString "Updated Post")])] ]>
          readme_db),
     [Respond {| status := StatusOK;
                 body := EncodedItem (object [("id", VInt 1);
                                              ("title", VString "Updated Post")]) |};
      Panicked]).
Proof. vm_compute. reflexivity. Qed.

(** C3, at the code: on the empty collection [posts], a [POST] without
    ["id"] is assigned 1 and answered 201; the [DELETE /posts/1] that
    follows panics in [findItemIndex] and removes nothing; so the second
    [POST] without ["id"] finds one record and is assigned 2, not 1. *)
Theorem C3_post_delete_post :
  serve empty_posts_server
    [(false, POST "/posts" [("title", VString "x")]);
     (false, DELETE "/posts/1");
     (false, POST "/posts" [("title", VString "y")])]
  = (with_data empty_posts_server
       {[ "posts" := Slice [VMap (object [("id", VInt 1); ("title", VString "x")]);
                            VMap (object [("id", VInt 2); ("title", VString "y")])] ]},
     [Respond {| status := StatusCreated;
                 body := EncodedItem (object [("id", VInt 1); ("title", VString "x")]) |};
      Panicked;
      Respond {| status := StatusCreated;
                 body := EncodedItem (object [("id", VInt 2); ("title", VString "y")]) |}]).
Proof. vm_compute. reflexivity. Qed.

(** ** Nil maps and nil slices *)

(** The statements above are about bodies that decode to a map and about
    a store that is a map.  The remaining cases, for the record: the body
    [null] decodes without error to the nil map, and the write of ["id"]
    into it panics; a store unmarshalled from the document [null] is the
    nil map, and the first [POST] panics on it; a collection unmarshalled
    from [null] is the nil slice, which [GET] hands to the encoder as
    such. *)
Example post_null_body_panics :
  handleCollection readme_server false
    {| Method := "POST"; Path := "/posts"; Body := Decoded None |}
  = (readme_server, Panicked).
Proof. reflexivity. Qed.

Example put_null_body_panics :
  handleCollection readme_server false
    {| Method := "PUT"; Path := "/posts/1"; Body := Decoded None |}
  = (readme_server, Panicked).
Proof. reflexivity. Qed.

Example post_on_nil_store_panics :
  handleCollection {| data := None; filename := "db.json" |} false
    (POST "/posts" [("title", VString "x")])
  = ({| data := None; filename := "db.json" |}, Panicked).
Proof. reflexivity. Qed.

Example get_nil_collection :
  handleCollection
    {| data := Some {[ "posts" := NilSlice ]}; filename := "db.json" |} false
    (GET "/posts")
  = ({| data := Some {[ "posts" := NilSlice ]}; filename := "db.json" |},
     Respond {| status := StatusOK; body := EncodedItems NilSlice |}).
Proof. reflexivity. Qed.

(** A method other than the four leaves the store alone. *)
Lemma handleCollection_other_method (s : Server) (save_fails : bool) (r : Request) :
  Method r <> "GET" -> Method r <> "POST" -> Method r <> "PUT" ->
  Method r <> "DELETE" ->
  handleCollection s save_fails r
  = (s, http_Error "Method not allowed" StatusMethodNotAllowed).
Proof.
  intros H1 H2 H3 H4. unfold handleCollection.
  destruct (Split (Trim (Path r))) as [|c parts] eqn:Hp;
    [by apply Split_nonempty in Hp|].
  apply String.eqb_neq in H1, H2, H3, H4. by rewrite H1, H2, H3, H4.
Qed.

(** * Further properties *)

(** ** Path decoding: [strings.Trim] and [strings.Split] *)

Lemma no_slash_cons (c : ascii) (s : string) :
  no_slash (String c s) = true -> Ascii.eqb c "/" = false /\ no_slash s = true.
Proof.
  simpl. intros [Hc Hs]%andb_true_iff. split; [|done].
  by destruct (Ascii.eqb c "/").
Qed.

Lemma TrimLeft_segment (s : string) : no_slash s = true -> TrimLeft s = s.
Proof.
  destruct s as [|c s]; [done|]. intros [Hc _]%no_slash_cons. simpl. by rewrite Hc.
Qed.

Lemma TrimRight_segment (s : string) : no_slash s = true -> TrimRight s = s.
Proof.
  induction s as [|c s IH]; [done|]. intros [Hc Hs]%no_slash_cons.
  simpl. rewrite (IH Hs), Hc. by destruct s.
Qed.

Lemma append_cons (c : ascii) (a b : string) :
  (String c a ++ b)%string = String c (a ++ b)%string.
Proof. reflexivity. Qed.

Lemma append_nil_r (a : string) : (a ++ "")%string = a.
Proof. induction a as [|c a IH]; [done|]. by rewrite append_cons, IH. Qed.

(** Trailing material is trimmed independently of what is in front of
    it, as long as something of it stays. *)
Lemma TrimRight_app (a b : string) :
  TrimRight b <> EmptyString -> TrimRight (a ++ b)%string = (a ++ TrimRight b)%string.
Proof.
  intros Hb. induction a as [|c a IH]; [done|].
  rewrite !append_cons. cbn [TrimRight]. rewrite IH.
  destruct (a ++ TrimRight b)%string eqn:Hab; [|done].
  destruct a; [done|]. by rewrite append_cons in Hab.
Qed.

(** A trailing separator goes, the segment in front of it stays. *)
Lemma TrimRight_segment_slash (t : string) :
  t <> EmptyString -> no_slash t = true -> TrimRight (t ++ "/")%string = t.
Proof.
  induction t as [|x t IH]; [done|]. intros _ [Hx Hns]%no_slash_cons.
  rewrite append_cons. cbn [TrimRight].
  destruct t as [|y t]; [cbn; by rewrite Hx|].
  by rewrite IH.
Qed.

Lemma TrimLeft_slash_segment (c t : string) :
  c <> EmptyString -> no_slash c = true ->
  TrimLeft (String "/" (c ++ t)%string) = (c ++ t)%string.
Proof.
  intros Hc Hcs. destruct c as [|x c]; [done|].
  apply no_slash_cons in Hcs as [Hx _].
  rewrite append_cons. cbn. by rewrite Hx.
Qed.

Lemma Split_segment (s : string) : no_slash s = true -> Split s = [s].
Proof.
  induction s as [|c s IH]; [done|]. intros [Hc Hs]%no_slash_cons.
  simpl. by rewrite Hc, (IH Hs).
Qed.

Lemma Split_app_slash (a b : string) :
  no_slash a = true -> Split (a ++ String "/" b)%string = a :: Split b.
Proof.
  induction a as [|c a IH]; [done|]. intros [Hc Ha]%no_slash_cons.
  rewrite append_cons. cbn [Split]. by rewrite Hc, (IH Ha).
Qed.

Lemma TrimRight_cons (x : ascii) (t : string) :
  TrimRight t <> EmptyString -> TrimRight (String x t) = String x (TrimRight t).
Proof. intros Ht. cbn [TrimRight]. by destruct (TrimRight t). Qed.

Lemma TrimRight_two_segments (c t : string) :
  TrimRight t <> EmptyString ->
  TrimRight (c ++ String "/" t)%string = (c ++ String "/" (TrimRight t))%string.
Proof.
  intros Ht. rewrite TrimRight_app; by rewrite TrimRight_cons.
Qed.

(** X1.  The routes decode as the handlers expect: for a collection name
    [c] and a token [tok], both non-empty and without a separator, the
    paths [/c] and [/c/] give the parts [[c]], and [/c/tok] and [/c/tok/]
    give [[c; tok]]. *)
Theorem path_decoding (c tok : string) :
  c <> EmptyString -> no_slash c = true ->
  tok <> EmptyString -> no_slash tok = true ->
  Split (Trim (String "/" c)) = [c] /\
  Split (Trim (String "/" (c ++ "/"))) = [c] /\
  Split (Trim (String "/" (c ++ String "/" tok))) = [c; tok] /\
  Split (Trim (String "/" (c ++ String "/" (tok ++ "/")))) = [c; tok].
Proof.
  intros Hc Hcs Ht Hts. unfold Trim.
  split; [|split; [|split]].
  - rewrite <- (append_nil_r c) at 1. rewrite TrimLeft_slash_segment by done.
    rewrite append_nil_r, TrimRight_segment by done. by apply Split_segment.
  - rewrite TrimLeft_slash_segment, TrimRight_segment_slash by done.
    by apply Split_segment.
  - rewrite TrimLeft_slash_segment by done.
    rewrite TrimRight_two_segments by (by rewrite TrimRight_segment).
    rewrite TrimRight_segment, Split_app_slash by done.
    by rewrite Split_segment.
  - rewrite TrimLeft_slash_segment by done.
    rewrite TrimRight_two_segments by (by rewrite TrimRight_segment_slash).
    rewrite TrimRight_segment_slash, Split_app_slash by done.
    by rewrite Split_segment.
Qed.

Lemma path_decoding_witness :
  Split (Trim "/posts") = ["posts"] /\ Split (Trim "/posts/") = ["posts"] /\
  Split (Trim "/posts/12") = ["posts"; "12"] /\
  Split (Trim "/posts/12/") = ["posts"; "12"].
Proof.
  apply (path_decoding "posts" "12"); [discriminate | reflexivity | discriminate | reflexivity].
Defined.

Lemma Split_cons_inv (s : string) : exists h t, Split s = h :: t.
Proof.
  destruct (Split s) as [|h t] eqn:Hs; [by apply Split_nonempty in Hs | eauto].
Qed.

Lemma Split_no_slash (s : string) :
  Forall (fun part => no_slash part = true) (Split s).
Proof.
  induction s as [|c s IH]; [by repeat constructor|].
  simpl. destruct (Ascii.eqb c "/") eqn:Hc; [by constructor|].
  destruct (Split s) as [|h t]; [by repeat constructor; simpl; rewrite Hc|].
  apply Forall_cons in IH as [Hh Ht]. constructor; [|done].
  simpl. by rewrite Hc, Hh.
Qed.

Lemma TrimLeft_head (p : string) :
  match TrimLeft p with
  | EmptyString => True
  | String c _ => Ascii.eqb c "/" = false
  end.
Proof.
  induction p as [|c p IH]; [done|]. simpl.
  by destruct (Ascii.eqb c "/") eqn:Hc.
Qed.

(** X2.  Whatever the path, [handleCollection] has a [parts[0]] to read:
    the parts are never empty, none of them contains a separator, and the
    collection name is the empty string only when nothing but separators
    was in the path. *)
Theorem collection_name_of_path (p : string) :
  exists (collection : string) (rest : list string),
    Split (Trim p) = collection :: rest /\
    Forall (fun part => no_slash part = true) (collection :: rest) /\
    (collection = EmptyString <-> Trim p = EmptyString).
Proof.
  destruct (Split_cons_inv (Trim p)) as (h & t & Hs).
  exists h, t. split; [done|]. split; [rewrite <- Hs; apply Split_no_slash|].
  unfold Trim in *. pose proof (TrimLeft_head p) as Hhead.
  destruct (TrimLeft p) as [|c q]; [simpl in Hs; by injection Hs as <- <-|].
  assert (Hr : exists q', TrimRight (String c q) = String c q').
  { cbn [TrimRight]. destruct (TrimRight q); rewrite ?Hhead; eauto. }
  destruct Hr as [q' Hr]. rewrite Hr in Hs |- *.
  cbn [Split] in Hs. rewrite Hhead in Hs.
  destruct (Split q') as [|h' t']; injection Hs as <- <-; done.
Qed.

(** ** [strconv.Atoi] *)

Lemma is_digit_not_sign (c : ascii) :
  is_digit c = true -> Ascii.eqb c "-" = false /\ Ascii.eqb c "+" = false.
Proof.
  intros Hc. split.
  - destruct (Ascii.eqb_spec c "-") as [->|]; [discriminate Hc | done].
  - destruct (Ascii.eqb_spec c "+") as [->|]; [discriminate Hc | done].
Qed.

Lemma digits_nonneg (s : string) (acc n : Z) :
  0 <= acc -> digits acc s = Some n -> 0 <= n.
Proof.
  revert acc. induction s as [|c s IH]; intros acc Hacc; simpl.
  - by intros [= <-].
  - destruct (is_digit c) eqn:Hc; [|done]. apply IH.
    unfold is_digit in Hc. apply andb_true_iff in Hc as [H1%Z.leb_le _].
    unfold digit_value. lia.
Qed.

(** X4.  In front of a token that starts with a digit, a plus sign or a
    zero changes nothing: [/posts/+1] and [/posts/01] address the record
    that [/posts/1] addresses.  A minus sign negates. *)
Theorem Atoi_sign_and_zero (c : ascii) (ds : string) :
  is_digit c = true ->
  Atoi (String "+" (String c ds)) = Atoi (String c ds) /\
  Atoi (String "0" (String c ds)) = Atoi (String c ds) /\
  forall n : Z, Atoi (String c ds) = Some n ->
    Atoi (String "-" (String c ds)) = Some (- n).
Proof.
  intros Hc. destruct (is_digit_not_sign c Hc) as [Hm Hp].
  unfold Atoi. rewrite Hm, Hp. cbn [Ascii.eqb orb Bool.eqb andb].
  split; [done|]. split; [done|].
  intros n. cbn [orb]. destruct (digits 0 (String c ds)) as [v|] eqn:Hv; [|done].
  apply digits_nonneg in Hv; [|done].
  destruct (_ && _) eqn:Hr; [|done]. intros [= ->].
  apply andb_true_iff in Hr as [H1%Z.leb_le H2%Z.leb_le].
  replace ((min_int <=? - n) && (- n <=? max_int)) with true; [done|].
  symmetry. apply andb_true_iff. unfold min_int, max_int in *.
  split; apply Z.leb_le; lia.
Qed.

Lemma Atoi_sign_and_zero_witness :
  Atoi "+17" = Atoi "17" /\ Atoi "017" = Atoi "17" /\ Atoi "-17" = Some (- 17).
Proof.
  destruct (Atoi_sign_and_zero "1" "7" eq_refl) as (Hp & Hz & Hn).
  split; [exact Hp|]. split; [exact Hz|]. exact (Hn 17 eq_refl).
Defined.

(** ** How a request can end *)

Lemma data_cases (s : Server) :
  data s = None \/ exists d : gmap string slice, data s = Some d.
Proof. destruct (data s); eauto. Qed.

(** The three ways [handlePost] ends, none of them chosen by the save: a
    panic or a 400 with the store as it was, or the append. *)
Lemma handlePost_inv (s : Server) (r : Request) (c : string) :
  (forall sf, handlePost s sf r c = (s, Panicked)) \/
  (exists err, Body r = DecodeError err /\
     forall sf, handlePost s sf r c = (s, http_Error err StatusBadRequest)) \/
  (exists (d : gmap string slice) (u : gmap string value),
     data s = Some d /\ Body r = Decoded (Some u) /\
     forall sf, handlePost s sf r c
     = (with_data s (<[c := append (index_slice (data s) c) (VMap (posted s c u))]> d),
        if sf then save_failed
        else Respond {| status := StatusCreated;
                        body := EncodedItem (posted s c u) |})).
Proof.
  destruct (Body r) as [err|[u|]] eqn:Hb.
  - right; left. exists err. split; [done|]. intros sf. unfold handlePost. by rewrite Hb.
  - destruct (data_cases s) as [Hd|[d Hd]].
    + left. intros sf. unfold handlePost. rewrite Hb, Hd. simpl. by destruct (u !! "id").
    + right; right. exists d, u. split; [done|]. split; [done|].
      intros sf. by apply handlePost_stores.
  - left. intros sf. unfold handlePost. by rewrite Hb.
Qed.

(** The ways [handlePut] ends: a panic, a 400 or a 404 with the store as
    it was, or the replacement at the index [findItemIndex] returned. *)
Lemma handlePut_inv (s : Server) (r : Request) (c : string) (parts : list string) :
  (forall sf, handlePut s sf r c parts = (s, Panicked)) \/
  (exists msg, forall sf,
     handlePut s sf r c parts = (s, http_Error msg StatusBadRequest)) \/
  (forall sf,
     handlePut s sf r c parts = (s, http_Error "Item not found" StatusNotFound)) \/
  (exists (d : gmap string slice) (items : list value) (id : Z) (idx : nat)
          (u : gmap string value),
     data s = Some d /\ d !! c = Some (Slice items) /\
     findItemIndex s c id = Some (Some idx) /\
     forall sf, handlePut s sf r c parts
     = (with_data s (<[c := Slice (<[idx := VMap (<["id" := VInt id]> u)]> items)]> d),
        if sf then save_failed
        else Respond {| status := StatusOK;
                        body := EncodedItem (<["id" := VInt id]> u) |})).
Proof.
  destruct parts as [|p0 [|tok rest]];
    [right; left; by eexists | right; left; by eexists |].
  destruct (Atoi tok) as [id|] eqn:Htok;
    [|right; left; exists "Invalid ID"; intros sf; unfold handlePut; by rewrite Htok].
  destruct (Body r) as [err|[u|]] eqn:Hb.
  - right; left. exists err. intros sf. unfold handlePut. by rewrite Htok, Hb.
  - destruct (findItemIndex s c id) as [[idx|]|] eqn:Hf.
    + destruct (findItemIndex_found _ _ _ _ Hf) as (d & items & Hd & Hc & _).
      right; right; right. exists d, items, id, idx, u.
      split; [done|]. split; [done|]. split; [done|]. intros sf.
      replace (handlePut s sf r c (p0 :: tok :: rest))
        with (handlePut s sf r c (c :: tok :: rest)) by done.
      by apply handlePut_replaces.
    + right; right; left. intros sf. unfold handlePut. by rewrite Htok, Hb, Hf.
    + left. intros sf. unfold handlePut. by rewrite Htok, Hb, Hf.
  - destruct (findItemIndex s c id) as [[idx|]|] eqn:Hf.
    + left. intros sf. unfold handlePut. by rewrite Htok, Hb, Hf.
    + right; right; left. intros sf. unfold handlePut. by rewrite Htok, Hb, Hf.
    + left. intros sf. unfold handlePut. by rewrite Htok, Hb, Hf.
Qed.

Lemma handleDelete_inv (s : Server) (c : string) (parts : list string) :
  (forall sf, handleDelete s sf c parts = (s, Panicked)) \/
  (exists msg, forall sf,
     handleDelete s sf c parts = (s, http_Error msg StatusBadRequest)) \/
  (forall sf,
     handleDelete s sf c parts = (s, http_Error "Item not found" StatusNotFound)) \/
  (exists (d : gmap string slice) (items : list value) (id : Z) (idx : nat),
     data s = Some d /\ d !! c = Some (Slice items) /\
     findItemIndex s c id = Some (Some idx) /\
     forall sf, handleDelete s sf c parts
     = (with_data s (<[c := Slice (take idx items ++ drop (S idx) items)]> d),
        if sf then save_failed
        else Respond {| status := StatusOK; body := NoBody |})).
Proof.
  destruct parts as [|p0 [|tok rest]];
    [right; left; by eexists | right; left; by eexists |].
  destruct (Atoi tok) as [id|] eqn:Htok;
    [|right; left; exists "Invalid ID"; intros sf; unfold handleDelete; by rewrite Htok].
  destruct (findItemIndex s c id) as [[idx|]|] eqn:Hf.
  - destruct (findItemIndex_found _ _ _ _ Hf) as (d & items & Hd & Hc & _).
    right; right; right. exists d, items, id, idx.
    split; [done|]. split; [done|]. split; [done|]. intros sf.
    replace (handleDelete s sf c (p0 :: tok :: rest))
      with (handleDelete s sf c (c :: tok :: rest)) by done.
    by eapply handleDelete_removes.
  - right; right; left. intros sf. unfold handleDelete. by rewrite Htok, Hf.
  - left. intros sf. unfold handleDelete. by rewrite Htok, Hf.
Qed.

(** [handleGet] answers 200, 400 or 404, or panics in its scan. *)
Lemma handleGet_inv (s : Server) (c : string) (parts : list string) :
  handleGet s c parts = Panicked \/
  exists resp, handleGet s c parts = Respond resp /\
    (status resp = StatusOK \/ status resp = StatusBadRequest \/
     status resp = StatusNotFound).
Proof.
  unfold handleGet. destruct (map_index (data s) c) as [items|]; [|right; eauto].
  destruct parts as [|p0 [|tok rest]]; [right; eauto | right; eauto |].
  destruct (Atoi tok) as [id|]; [|right; eauto 6].
  induction (elems items) as [|v l IH]; [right; eauto 6|].
  rewrite handleGet_loop_cons.
  destruct v; try (by left). destruct (item_id _) as [x|]; [|by left].
  destruct (x =? id); [right; eauto | done].
Qed.

(** The ways a request other than [GET] ends: refused, the store as it
    was, whatever the save would have done; or one collection of a
    non-nil store rewritten, the state the same whether the save fails
    or not, the answer 500 if it does and 200 or 201 if it does not. *)
Lemma handleCollection_inv (s : Server) (r : Request) :
  Method r <> "GET" ->
  exists (c : string) (rest : list string),
    Split (Trim (Path r)) = c :: rest /\
    ((exists o, refusal o /\ forall sf, handleCollection s sf r = (s, o)) \/
     exists (d : gmap string slice) (new : slice) (ok : response),
       data s = Some d /\
       (Method r = "POST" \/ is_Some (d !! c)) /\
       ((Method r = "POST" /\ status ok = StatusCreated) \/
        (Method r <> "POST" /\ status ok = StatusOK)) /\
       forall sf : bool,
         handleCollection s sf r
         = (with_data s (<[c := new]> d), if sf then save_failed else Respond ok)).
Proof.
  intros Hg.
  destruct (Split_cons_inv (Trim (Path r))) as (c & rest & Hp).
  exists c, rest. split; [done|].
  unfold handleCollection, refusal. rewrite Hp.
  apply String.eqb_neq in Hg. rewrite Hg.
  destruct (String.eqb_spec (Method r) "POST") as [Hpost|Hpost].
  { destruct (handlePost_inv s r c) as [H|[(err & _ & H)|(d & u & Hd & Hb & H)]].
    - left. eexists. split; [by left | done].
    - left. eexists (http_Error _ StatusBadRequest).
      split; [right; eexists _, _; split; [done | by left] | done].
    - right.
      eexists d, _, {| status := StatusCreated; body := EncodedItem (posted s c u) |}.
      split; [done|]. split; [by left|].
      split; [by left | exact H]. }
  destruct (String.eqb_spec (Method r) "PUT") as [Hput|Hput].
  { destruct (handlePut_inv s r c (c :: rest))
      as [H|[(msg & H)|[H|(d & items & id & idx & u & Hd & Hc & Hf & H)]]].
    - left. eexists. split; [by left | done].
    - left. eexists (http_Error _ StatusBadRequest).
      split; [right; eexists _, _; split; [done | by left] | done].
    - left. exists (http_Error "Item not found" StatusNotFound).
      split; [right; eexists _, _; split; [done | by right; left] | done].
    - right.
      eexists d, _, {| status := StatusOK;
                       body := EncodedItem (<["id" := VInt id]> u) |}.
      split; [done|]. split; [right; by eexists|].
      split; [by right | exact H]. }
  destruct (String.eqb_spec (Method r) "DELETE") as [Hdel|Hdel].
  { destruct (handleDelete_inv s c (c :: rest))
      as [H|[(msg & H)|[H|(d & items & id & idx & Hd & Hc & Hf & H)]]].
    - left. eexists. split; [by left | done].
    - left. eexists (http_Error _ StatusBadRequest).
      split; [right; eexists _, _; split; [done | by left] | done].
    - left. exists (http_Error "Item not found" StatusNotFound).
      split; [right; eexists _, _; split; [done | by right; left] | done].
    - right. eexists d, _, {| status := StatusOK; body := NoBody |}.
      split; [done|]. split; [right; by eexists|].
      split; [by right | exact H]. }
  left. exists (http_Error "Method not allowed" StatusMethodNotAllowed).
  split; [right; eexists _, _; split; [done | by right; right] | done].
Qed.

(** ** What a request can and cannot do to the store *)

Lemma handleCollection_GET_state (s : Server) (sf : bool) (r : Request) :
  Method r = "GET" -> fst (handleCollection s sf r) = s.
Proof.
  intros Hm. destruct (Split_cons_inv (Trim (Path r))) as (c & rest & Hp).
  by rewrite (handleCollection_GET _ _ _ _ _ Hp Hm).
Qed.

(** X5.  A request answered 400, 404 or 405, or not answered at all
    because the handler panicked, leaves the store exactly as it was:
    only an answer of 200, 201 or 500 can come with a change. *)
Theorem refused_request_changes_nothing (s : Server) (sf : bool) (r : Request) :
  status_of (snd (handleCollection s sf r)) <> Some StatusOK ->
  status_of (snd (handleCollection s sf r)) <> Some StatusCreated ->
  status_of (snd (handleCollection s sf r)) <> Some StatusInternalServerError ->
  fst (handleCollection s sf r) = s.
Proof.
  intros H200 H201 H500.
  destruct (decide (Method r = "GET")) as [Hg|Hg];
    [by apply handleCollection_GET_state|].
  destruct (handleCollection_inv s r Hg)
    as (c & rest & _ & [(o & _ & H)|(d & new & ok & _ & _ & Hok & H)]).
  - by rewrite H.
  - rewrite H in H200, H201, H500. destruct sf; simpl in *; [done|].
    destruct Hok as [[_ Hok]|[_ Hok]]; congruence.
Qed.

Lemma refused_request_changes_nothing_witness :
  fst (handleCollection readme_server false (PUT "/posts/9" [("title", VString "x")]))
  = readme_server.
Proof.
  apply refused_request_changes_nothing; vm_compute; discriminate.
Defined.

(** X6.  A request touches no collection but the one its path names:
    every other key of the store is mapped after the request to what it
    was mapped to before, and an absent key stays absent. *)
Theorem other_collections_untouched (s : Server) (sf : bool) (r : Request)
  (c : string) (rest : list string) (k : string) :
  Split (Trim (Path r)) = c :: rest ->
  k <> c ->
  map_index (data (fst (handleCollection s sf r))) k = map_index (data s) k.
Proof.
  intros Hp Hk.
  destruct (decide (Method r = "GET")) as [Hg|Hg];
    [by rewrite handleCollection_GET_state|].
  destruct (handleCollection_inv s r Hg)
    as (c' & rest' & Hp' & [(o & _ & H)|(d & new & ok & Hd & _ & _ & H)]).
  - by rewrite H.
  - rewrite Hp in Hp'. injection Hp' as <- <-.
    rewrite H, Hd. simpl. by rewrite lookup_insert_ne.
Qed.

Lemma other_collections_untouched_witness :
  map_index
    (data (fst (handleCollection readme_server false (DELETE "/posts/1")))) "users"
  = map_index (data readme_server) "users".
Proof.
  exact (other_collections_untouched readme_server false (DELETE "/posts/1")
           "posts" ["1"] "users" eq_refl ltac:(discriminate)).
Defined.

(** X7.  Only [POST] creates a collection: after a request of any other
    method, every key of the store was a key before. *)
Theorem only_post_creates_collections (s : Server) (sf : bool) (r : Request)
  (k : string) :
  Method r <> "POST" ->
  is_Some (map_index (data (fst (handleCollection s sf r))) k) ->
  is_Some (map_index (data s) k).
Proof.
  intros Hpost.
  destruct (decide (Method r = "GET")) as [Hg|Hg];
    [by rewrite handleCollection_GET_state|].
  destruct (handleCollection_inv s r Hg)
    as (c & rest & _ & [(o & _ & H)|(d & new & ok & Hd & [Hm|Hc] & _ & H)]).
  - by rewrite H.
  - done.
  - rewrite H, Hd. simpl. destruct (decide (c = k)) as [<-|Hne]; [done|].
    by rewrite lookup_insert_ne.
Qed.

Lemma only_post_creates_collections_witness :
  is_Some (map_index (data readme_server) "posts").
Proof.
  apply (only_post_creates_collections readme_server false
           (PUT "/posts/1" [("title", VString "x")]) "posts");
    [discriminate | by eexists].
Defined.

(** X8.  [POST] creates the collection it names when the store has no
    such key: on a non-nil store, a body that decodes to the record [u]
    without ["id"] becomes the only record of the new collection, with
    the id 1, and is answered 201 when the save succeeds. *)
Theorem post_creates_collection (s : Server) (d : gmap string slice)
  (sf : bool) (r : Request) (c : string) (rest : list string)
  (u : gmap string value) :
  data s = Some d -> d !! c = None ->
  Method r = "POST" -> Split (Trim (Path r)) = c :: rest ->
  Body r = Decoded (Some u) -> u !! "id" = None ->
  handleCollection s sf r
  = (with_data s (<[c := Slice [VMap (<["id" := VInt 1]> u)] ]> d),
     if sf then save_failed
     else Respond {| status := StatusCreated;
                     body := EncodedItem (<["id" := VInt 1]> u) |}).
Proof.
  intros Hd Hc Hm Hp Hb Hu.
  rewrite (handleCollection_POST _ _ _ _ _ Hp Hm).
  rewrite (handlePost_stores _ _ _ _ Hd _ _ Hb).
  unfold posted, append, len, index_slice, map_index. by rewrite Hu, Hd, Hc.
Qed.

Lemma post_creates_collection_witness :
  handleCollection readme_server false (POST "/comments" [("text", VString "hi")])
  = (with_data readme_server
       (<["comments" := Slice [VMap (<["id" := VInt 1]> (object [("text", VString "hi")]))] ]>
          readme_db),
     Respond {| status := StatusCreated;
                body := EncodedItem (<["id" := VInt 1]> (object [("text", VString "hi")])) |}).
Proof.
  exact (post_creates_collection readme_server readme_db false
           (POST "/comments" [("text", VString "hi")]) "comments" []
           (object [("text", VString "hi")])
           eq_refl eq_refl eq_refl eq_refl eq_refl eq_refl).
Defined.

(** X9.  The save decides the answer and nothing else: the store after a
    request is the same whether the save fails or not, and the two
    answers differ only in that a 200 or 201 becomes the 500 "Failed to
    save data". *)
Theorem save_decides_only_the_answer (s : Server) (r : Request) :
  fst (handleCollection s true r) = fst (handleCollection s false r) /\
  (snd (handleCollection s true r) = snd (handleCollection s false r) \/
   (snd (handleCollection s true r) = save_failed /\
    (status_of (snd (handleCollection s false r)) = Some StatusOK \/
     status_of (snd (handleCollection s false r)) = Some StatusCreated))).
Proof.
  destruct (decide (Method r = "GET")) as [Hg|Hg].
  { destruct (Split_cons_inv (Trim (Path r))) as (c & rest & Hp).
    rewrite !(handleCollection_GET _ _ _ _ _ Hp Hg). split; [done | by left]. }
  destruct (handleCollection_inv s r Hg)
    as (c & rest & _ & [(o & _ & H)|(d & new & ok & _ & _ & Hok & H)]).
  - rewrite !H. split; [done | by left].
  - rewrite !H. split; [done|]. right. split; [done|]. simpl.
    destruct Hok as [[_ ->]|[_ ->]]; [by right | by left].
Qed.

(** ** Status codes *)

(** X10.  The statuses each method can answer with.  [GET]: 200, 400,
    404.  [POST]: 201, 400, 500.  [PUT] and [DELETE]: 200, 400, 404, 500.
    Any other method: always 405.  A 500 is only ever the answer to a
    failed save. *)
Theorem statuses_by_method (s : Server) (sf : bool) (r : Request) (code : Z) :
  status_of (snd (handleCollection s sf r)) = Some code ->
  (Method r = "GET" ->
   code = StatusOK \/ code = StatusBadRequest \/ code = StatusNotFound) /\
  (Method r = "POST" ->
   code = StatusCreated \/ code = StatusBadRequest \/
   code = StatusInternalServerError) /\
  (Method r = "PUT" \/ Method r = "DELETE" ->
   code = StatusOK \/ code = StatusBadRequest \/ code = StatusNotFound \/
   code = StatusInternalServerError) /\
  (Method r <> "GET" -> Method r <> "POST" -> Method r <> "PUT" ->
   Method r <> "DELETE" -> code = StatusMethodNotAllowed) /\
  (code = StatusInternalServerError -> sf = true).
Proof.
  intros Hcode.
  destruct (Split_cons_inv (Trim (Path r))) as (c & rest & Hp).
  split; [|split; [|split; [|split]]].
  - intros Hm. rewrite (handleCollection_GET _ _ _ _ _ Hp Hm) in Hcode. simpl in Hcode.
    destruct (handleGet_inv s c (c :: rest)) as [H|(resp & H & Hs)];
      rewrite H in Hcode; [done|]. by injection Hcode as <-.
  - intros Hm. rewrite (handleCollection_POST _ _ _ _ _ Hp Hm) in Hcode.
    destruct (handlePost_inv s r c) as [H|[(err & _ & H)|(d & u & _ & _ & H)]];
      rewrite H in Hcode; simpl in Hcode; [done | injection Hcode as <-; auto |].
    destruct sf; injection Hcode as <-; auto.
  - intros [Hm|Hm].
    + rewrite (handleCollection_PUT _ _ _ _ _ Hp Hm) in Hcode.
      destruct (handlePut_inv s r c (c :: rest))
        as [H|[(msg & H)|[H|(d & items & id & idx & u & _ & _ & _ & H)]]];
        rewrite H in Hcode; simpl in Hcode;
        [done | injection Hcode as <-; auto | injection Hcode as <-; auto |].
      destruct sf; injection Hcode as <-; auto.
    + rewrite (handleCollection_DELETE _ _ _ _ _ Hp Hm) in Hcode.
      destruct (handleDelete_inv s c (c :: rest))
        as [H|[(msg & H)|[H|(d & items & id & idx & _ & _ & _ & H)]]];
        rewrite H in Hcode; simpl in Hcode;
        [done | injection Hcode as <-; auto | injection Hcode as <-; auto |].
      destruct sf; injection Hcode as <-; auto.
  - intros H1 H2 H3 H4.
    rewrite (handleCollection_other_method s sf r H1 H2 H3 H4) in Hcode.
    by injection Hcode as <-.
  - intros ->. destruct sf; [done|].
    destruct (decide (Method r = "GET")) as [Hg|Hg].
    + rewrite (handleCollection_GET _ _ _ _ _ Hp Hg) in Hcode. simpl in Hcode.
      destruct (handleGet_inv s c (c :: rest)) as [H|(resp & H & Hs)];
        rewrite H in Hcode; [done|]. injection Hcode as Hc.
      rewrite Hc in Hs. by destruct Hs as [|[|]].
    + destruct (handleCollection_inv s r Hg)
        as (c' & rest' & _ & [(o & Ho & H)|(d & new & ok & _ & _ & Hok & H)]);
        rewrite H in Hcode; simpl in Hcode.
      * destruct Ho as [->|(msg & code & -> & Hc)]; [done|].
        injection Hcode as ->. by destruct Hc as [|[|]].
      * injection Hcode as Hc. rewrite Hc in Hok.
        by destruct Hok as [[_ ?]|[_ ?]].
Qed.

Lemma statuses_by_method_witness :
  StatusNotFound = StatusOK \/ StatusNotFound = StatusBadRequest \/
  StatusNotFound = StatusNotFound.
Proof.
  exact (proj1 (statuses_by_method readme_server false (GET "/posts/9")
                  StatusNotFound eq_refl) eq_refl).
Defined.

(** ** Lookups *)

Lemma findItemIndex_loop_numeric (items : list value) (i : nat) (id : Z) :
  numeric_ids items ->
  (exists n, findItemIndex_loop items i id = Some (Some n)) \/
  findItemIndex_loop items i id = Some None.
Proof.
  revert i. induction items as [|v items IH]; intros i Hnum; [by right|].
  apply Forall_cons in Hnum as [[x Hx] Hnum].
  rewrite findItemIndex_loop_cons, Hx.
  destruct (x =? id); [left; eauto | by apply IH].
Qed.


(** X11.  The index [findItemIndex] returns is in range, and the element
    there is a record with the id asked for: the write
    [s.data[collection][idx] = ...] of [handlePut] and the two slice
    expressions of [handleDelete] never go out of bounds. *)
Theorem findItemIndex_in_range (s : Server) (c : string) (id : Z) (idx : nat) :
  findItemIndex s c id = Some (Some idx) ->
  (idx < length (elems (index_slice (data s) c)))%nat /\
  exists m : gmap string value,
    elems (index_slice (data s) c) !! idx = Some (VMap m) /\
    item_id (VMap m) = Some id.
Proof.
  intros Hf.
  destruct (findItemIndex_found _ _ _ _ Hf) as (d & items & Hd & Hc & Hidx & _).
  rewrite Hd, (index_slice_lookup _ _ _ Hc). simpl.
  destruct (items !! idx) as [v|] eqn:Hv; [simpl in Hidx|done].
  split; [by eapply lookup_lt_Some|].
  destruct (item_id_is_map _ _ Hidx) as [m ->]. by exists m.
Qed.

Lemma findItemIndex_in_range_witness :
  (1 < length (elems (index_slice (data dup_server) "items")))%nat.
Proof.
  exact (proj1 (findItemIndex_in_range dup_server "items" 2 1%nat eq_refl)).
Defined.

(** X12.  On a collection whose records all carry a [float64] id,
    [findItemIndex] never panics: it finds an index, or it reports "not
    found" and then no record of the collection has the id.  A missing
    collection counts as empty. *)
Theorem findItemIndex_total_on_numeric_ids (s : Server) (c : string) (id : Z) :
  numeric_ids (elems (index_slice (data s) c)) ->
  (exists idx, findItemIndex s c id = Some (Some idx)) \/
  (findItemIndex s c id = Some None /\
   id_free id (elems (index_slice (data s) c))).
Proof.
  intros Hnum. unfold findItemIndex.
  destruct (findItemIndex_loop_numeric _ 0 id Hnum) as [[n Hn]|Hn]; [left; eauto|].
  right. split; [done|]. by eapply findItemIndex_loop_None.
Qed.

Lemma findItemIndex_total_on_numeric_ids_witness :
  (exists idx, findItemIndex items_server "items" 7 = Some (Some idx)) \/
  (findItemIndex items_server "items" 7 = Some None /\
   id_free 7 (elems (index_slice (data items_server) "items"))).
Proof.
  apply findItemIndex_total_on_numeric_ids.
  repeat constructor; by eexists.
Defined.

(** X13.  The scan written out in [handleGet] and the one in
    [findItemIndex] agree: on an existing collection and a token that
    parses, [GET] answers 200 with the record at the index
    [findItemIndex] returns, answers 404 "Item not found" when
    [findItemIndex] reports "not found", and panics when it panics. *)
Theorem get_agrees_with_findItemIndex (s : Server) (sf : bool) (r : Request)
  (c tok : string) (rest : list string) (id : Z) :
  Method r = "GET" ->
  Split (Trim (Path r)) = c :: tok :: rest ->
  Atoi tok = Some id ->
  is_Some (map_index (data s) c) ->
  match findItemIndex s c id with
  | Some (Some idx) =>
      exists m : gmap string value,
        elems (index_slice (data s) c) !! idx = Some (VMap m) /\
        handleCollection s sf r
        = (s, Respond {| status := StatusOK; body := EncodedItem m |})
  | Some None =>
      handleCollection s sf r = (s, http_Error "Item not found" StatusNotFound)
  | None => handleCollection s sf r = (s, Panicked)
  end.
Proof.
  intros Hm Hp Htok [sl Hsl].
  rewrite (handleCollection_GET _ _ _ _ _ Hp Hm).
  unfold handleGet, findItemIndex, index_slice. rewrite Hsl, Htok.
  rewrite (handleGet_loop_findItemIndex _ 0 id).
  destruct (findItemIndex_loop (elems sl) 0 id) as [[idx|]|] eqn:Hf; [|done|done].
  rewrite Nat.sub_0_r.
  destruct (findItemIndex_loop_Some _ _ _ _ Hf) as (k & -> & Hk & _). simpl in *.
  destruct (elems sl !! k) as [v|]; [simpl in Hk|done].
  destruct (item_id_is_map _ _ Hk) as [m ->]. by exists m.
Qed.

Lemma get_agrees_with_findItemIndex_witness :
  handleCollection items_server false (GET "/items/7")
  = (items_server, http_Error "Item not found" StatusNotFound).
Proof.
  exact (get_agrees_with_findItemIndex items_server false (GET "/items/7")
           "items" "7" [] 7 eq_refl eq_refl eq_refl (ex_intro _ _ eq_refl)).
Defined.

(** ** Refusals of [PUT] and [DELETE] *)

(** X14.  A collection that is not in the store: [PUT] and [DELETE] with
    a token that parses answer 404 "Item not found" (for [PUT], whatever
    the body decoded to), where [GET] answers 404 "Collection not
    found".  The store is unchanged. *)
Theorem unknown_collection (s : Server) (sf : bool) (r : Request)
  (c tok : string) (rest : list string) (id : Z) :
  map_index (data s) c = None ->
  Split (Trim (Path r)) = c :: tok :: rest ->
  Atoi tok = Some id ->
  (Method r = "PUT" -> forall m, Body r = Decoded m ->
   handleCollection s sf r = (s, http_Error "Item not found" StatusNotFound)) /\
  (Method r = "DELETE" ->
   handleCollection s sf r = (s, http_Error "Item not found" StatusNotFound)) /\
  (Method r = "GET" ->
   handleCollection s sf r = (s, http_Error "Collection not found" StatusNotFound)).
Proof.
  intros Hc Hp Htok.
  assert (Hf : findItemIndex s c id = Some None).
  { unfold findItemIndex, index_slice. by rewrite Hc. }
  split; [|split].
  - intros Hm m Hb. rewrite (handleCollection_PUT _ _ _ _ _ Hp Hm).
    unfold handlePut. by rewrite Htok, Hb, Hf.
  - intros Hm. rewrite (handleCollection_DELETE _ _ _ _ _ Hp Hm).
    unfold handleDelete. by rewrite Htok, Hf.
  - intros Hm. rewrite (handleCollection_GET _ _ _ _ _ Hp Hm).
    unfold handleGet. by rewrite Hc.
Qed.

Lemma unknown_collection_witness :
  handleCollection readme_server false (DELETE "/comments/1")
  = (readme_server, http_Error "Item not found" StatusNotFound).
Proof.
  exact (proj1 (proj2 (unknown_collection readme_server false (DELETE "/comments/1")
                         "comments" "1" [] 1 eq_refl eq_refl eq_refl)) eq_refl).
Defined.

(** [PUT] and [DELETE] on a path with the collection name alone
    answer 400 "ID required": nothing of the body is read and the store
    is not consulted. *)
Theorem id_required (s : Server) (sf : bool) (r : Request) (c : string) :
  Split (Trim (Path r)) = [c] ->
  Method r = "PUT" \/ Method r = "DELETE" ->
  handleCollection s sf r = (s, http_Error "ID required" StatusBadRequest).
Proof.
  intros Hp [Hm|Hm].
  - by rewrite (handleCollection_PUT _ _ _ _ _ Hp Hm).
  - by rewrite (handleCollection_DELETE _ _ _ _ _ Hp Hm).
Qed.

Lemma id_required_witness :
  handleCollection readme_server false (DELETE "/posts")
  = (readme_server, http_Error "ID required" StatusBadRequest).
Proof.
  exact (id_required readme_server false (DELETE "/posts") "posts" eq_refl
           (or_intror eq_refl)).
Defined.

(** X15.  A body that does not decode is answered 400 with the decoder's
    message and the store is left alone: by [POST] always, by [PUT] as
    soon as the token parses, before any lookup, so also when the record
    does not exist or the lookup would have panicked. *)
Theorem undecodable_body (s : Server) (sf : bool) (r : Request)
  (c : string) (rest : list string) (err : string) :
  Split (Trim (Path r)) = c :: rest ->
  Body r = DecodeError err ->
  (Method r = "POST" ->
   handleCollection s sf r = (s, http_Error err StatusBadRequest)) /\
  (Method r = "PUT" ->
   forall tok rest' id, rest = tok :: rest' -> Atoi tok = Some id ->
   handleCollection s sf r = (s, http_Error err StatusBadRequest)).
Proof.
  intros Hp Hb. split.
  - intros Hm. rewrite (handleCollection_POST _ _ _ _ _ Hp Hm).
    unfold handlePost. by rewrite Hb.
  - intros Hm tok rest' id -> Htok. rewrite (handleCollection_PUT _ _ _ _ _ Hp Hm).
    unfold handlePut. by rewrite Htok, Hb.
Qed.

Lemma undecodable_body_witness :
  handleCollection readme_server false
    {| Method := "PUT"; Path := "/posts/9"; Body := DecodeError "unexpected EOF" |}
  = (readme_server, http_Error "unexpected EOF" StatusBadRequest).
Proof.
  exact (proj2 (undecodable_body readme_server false
                  {| Method := "PUT"; Path := "/posts/9";
                     Body := DecodeError "unexpected EOF" |}
                  "posts" ["9"] "unexpected EOF" eq_refl eq_refl)
           eq_refl "9" [] 9 eq_refl eq_refl).
Defined.

(** ** Requests in sequence *)

Lemma prefix_id_free (items : list value) (id : Z) (idx : nat) :
  (forall j : nat, (j < idx)%nat ->
     exists x, items !! j ≫= item_id = Some x /\ x <> id) ->
  id_free id (take idx items).
Proof.
  intros Hlt. apply Forall_forall. intros w Hw.
  apply list_elem_of_lookup in Hw as [j Hj].
  apply lookup_take_Some in Hj as [Hj Hji].
  destruct (Hlt j Hji) as (x & Hx & Hne). rewrite Hj in Hx. by exists x.
Qed.

(** The scan panics when it gets as far as a record whose ["id"] is a Go
    [int]. *)
Lemma findItemIndex_loop_reaches_int (items : list value) (i k : nat) (id n : Z)
  (m : gmap string value) :
  id_free id (take k items) ->
  items !! k = Some (VMap m) ->
  m !! "id" = Some (VInt n) ->
  findItemIndex_loop items i id = None.
Proof.
  revert i k. induction items as [|v items IH]; intros i k Hfree Hk Hm; [done|].
  rewrite findItemIndex_loop_cons. destruct k as [|k]; simpl in Hk, Hfree.
  - injection Hk as ->. simpl. by rewrite Hm.
  - apply Forall_cons in Hfree as [(x & -> & Hne) Hfree].
    apply Z.eqb_neq in Hne. rewrite Hne. by eapply IH.
Qed.

Lemma findItemIndex_loop_app_found (items : list value) (v : value) (i : nat)
  (id : Z) :
  findItemIndex_loop items i id = Some None ->
  item_id v = Some id ->
  findItemIndex_loop (items ++ [v]) i id = Some (Some (i + length items)%nat).
Proof.
  revert i. induction items as [|w items IH]; intros i Hnone Hv.
  - rewrite app_nil_l, findItemIndex_loop_cons, Hv, Z.eqb_refl.
    f_equal; f_equal. simpl. lia.
  - rewrite <- app_comm_cons, findItemIndex_loop_cons.
    rewrite findItemIndex_loop_cons in Hnone.
    destruct (item_id w) as [x|]; [|done].
    destruct (x =? id); [done|]. rewrite (IH _ Hnone Hv).
    f_equal; f_equal. simpl. lia.
Qed.

(** X16.  A [PUT] that replaces a record stores the path id as a Go
    [int], so it is the last request for that id the server answers: on
    the store it leaves, [findItemIndex] panics for that id, a [GET] of
    the same path panics, and so does the same [PUT] again. *)
Theorem put_makes_next_lookup_panic (s : Server) (sf : bool) (r : Request)
  (c tok : string) (rest : list string) (id : Z) (idx : nat)
  (u : gmap string value) :
  Method r = "PUT" ->
  Split (Trim (Path r)) = c :: tok :: rest ->
  Atoi tok = Some id ->
  Body r = Decoded (Some u) ->
  findItemIndex s c id = Some (Some idx) ->
  findItemIndex (fst (handleCollection s sf r)) c id = None /\
  (forall (g : Request) (sf' : bool),
     Method g = "GET" -> Path g = Path r ->
     snd (handleCollection (fst (handleCollection s sf r)) sf' g) = Panicked) /\
  (forall sf' : bool,
     snd (handleCollection (fst (handleCollection s sf r)) sf' r) = Panicked).
Proof.
  intros Hm Hp Htok Hb Hf.
  destruct (findItemIndex_found _ _ _ _ Hf) as (d & items & Hd & Hc & Hidx & Hlt).
  rewrite (handleCollection_PUT _ _ _ _ _ Hp Hm).
  rewrite (handlePut_replaces _ _ _ _ Hd _ _ _ _ _ Hc Htok Hf _ _ Hb). simpl.
  set (new := <["id" := VInt id]> u).
  set (s' := with_data s (<[c := Slice (<[idx := VMap new]> items)]> d)).
  assert (Hlen : (idx < length items)%nat).
  { apply lookup_lt_is_Some. destruct (items !! idx); [by eexists | done]. }
  assert (Hloop : findItemIndex_loop (<[idx := VMap new]> items) 0 id = None).
  { apply (findItemIndex_loop_reaches_int _ _ idx _ id new).
    - rewrite take_insert_ge by lia. by apply prefix_id_free.
    - by apply list_lookup_insert_eq.
    - apply lookup_insert_eq. }
  assert (Hf' : findItemIndex s' c id = None).
  { unfold findItemIndex, index_slice, s'. simpl. by rewrite lookup_insert_eq. }
  split; [done|]. split.
  - intros g sf' Hg Hgp. rewrite <- Hgp in Hp.
    rewrite (handleCollection_GET _ _ _ _ _ Hp Hg). simpl.
    unfold handleGet, s'. simpl. rewrite lookup_insert_eq, Htok. simpl.
    by rewrite (handleGet_loop_findItemIndex _ 0 id), Hloop.
  - intros sf'. rewrite (handleCollection_PUT _ _ _ _ _ Hp Hm).
    unfold handlePut. by rewrite Htok, Hb, Hf'.
Qed.

Lemma put_makes_next_lookup_panic_witness :
  findItemIndex
    (fst (handleCollection readme_server false
            (PUT "/posts/1" [("title", VString "Updated Post")]))) "posts" 1
  = None.
Proof.
  exact (proj1 (put_makes_next_lookup_panic readme_server false
                  (PUT "/posts/1" [("title", VString "Updated Post")])
                  "posts" "1" [] 1 0%nat
                  (object [("title", VString "Updated Post")])
                  eq_refl eq_refl eq_refl eq_refl eq_refl)).
Defined.



(** X18.  A record posted with a numeric id of its own can be read back
    under that id: if the id was not in the collection before, then after
    the [POST] [findItemIndex] returns the last index and [GET] answers
    200 with the record as it was posted. *)
Theorem post_with_id_then_get (s : Server) (d : gmap string slice) (sf : bool)
  (r : Request) (c : string) (rest : list string) (u : gmap string value)
  (id : Z) :
  data s = Some d ->
  Method r = "POST" -> Split (Trim (Path r)) = c :: rest ->
  Body r = Decoded (Some u) ->
  item_id (VMap u) = Some id ->
  findItemIndex s c id = Some None ->
  findItemIndex (fst (handleCollection s sf r)) c id
  = Some (Some (length (elems (index_slice (data s) c)))) /\
  forall (g : Request) (sf' : bool) (tok : string) (rest' : list string),
    Method g = "GET" -> Split (Trim (Path g)) = c :: tok :: rest' ->
    Atoi tok = Some id ->
    snd (handleCollection (fst (handleCollection s sf r)) sf' g)
    = Respond {| status := StatusOK; body := EncodedItem u |}.
Proof.
  intros Hd Hm Hp Hb Hid Hnone.
  assert (Hu : is_Some (u !! "id")).
  { simpl in Hid. destruct (u !! "id"); [by eexists | done]. }
  rewrite (handleCollection_POST _ _ _ _ _ Hp Hm).
  destruct (handlePost_count_based s sf r c d u Hd Hb) as [_ Hpost].
  rewrite (Hpost Hu). simpl.
  set (old := elems (index_slice (data s) c)) in *.
  pose proof (findItemIndex_loop_app_found old (VMap u) 0 id Hnone Hid) as Hloop.
  simpl in Hloop. split.
  - unfold findItemIndex, index_slice. simpl. by rewrite lookup_insert_eq.
  - intros g sf' tok rest' Hg Hgp Htok.
    rewrite (handleCollection_GET _ _ _ _ _ Hgp Hg). simpl.
    unfold handleGet. simpl. rewrite lookup_insert_eq, Htok. simpl.
    rewrite (handleGet_loop_findItemIndex _ 0 id), Hloop.
    rewrite Nat.sub_0_r, lookup_app_r, Nat.sub_diag by lia. done.
Qed.

Lemma post_with_id_then_get_witness :
  snd (handleCollection
         (fst (handleCollection readme_server false
                 (POST "/posts" [("id", number 5); ("title", VString "x")])))
         false (GET "/posts/5"))
  = Respond {| status := StatusOK;
               body := EncodedItem (object [("id", number 5); ("title", VString "x")]) |}.
Proof.
  exact (proj2 (post_with_id_then_get readme_server readme_db false
                  (POST "/posts" [("id", number 5); ("title", VString "x")])
                  "posts" [] (object [("id", number 5); ("title", VString "x")]) 5
                  eq_refl eq_refl eq_refl eq_refl eq_refl eq_refl)
           (GET "/posts/5") false "5" [] eq_refl eq_refl eq_refl).
Defined.

(** ** Path segments the handlers do not read *)

Lemma handleGet_two_parts (s : Server) (c : string) (parts : list string) :
  handleGet s c parts = handleGet s c (take 2 parts).
Proof. by destruct parts as [|p0 [|tok rest]]. Qed.

Lemma handlePut_two_parts (s : Server) (sf : bool) (r : Request) (c : string)
  (parts : list string) :
  handlePut s sf r c parts = handlePut s sf r c (take 2 parts).
Proof. by destruct parts as [|p0 [|tok rest]]. Qed.

Lemma handleDelete_two_parts (s : Server) (sf : bool) (c : string)
  (parts : list string) :
  handleDelete s sf c parts = handleDelete s sf c (take 2 parts).
Proof. by destruct parts as [|p0 [|tok rest]]. Qed.

Lemma handlePost_body (s : Server) (sf : bool) (r r' : Request) (c : string) :
  Body r = Body r' -> handlePost s sf r c = handlePost s sf r' c.
Proof. intros Hb. unfold handlePost. by rewrite Hb. Qed.

Lemma handlePut_body (s : Server) (sf : bool) (r r' : Request) (c : string)
  (parts : list string) :
  Body r = Body r' -> handlePut s sf r c parts = handlePut s sf r' c parts.
Proof. intros Hb. unfold handlePut. by rewrite Hb. Qed.

(** X19.  Of the path, the handlers read the first two segments and
    nothing else, and [POST] reads only the first: two requests with the
    same method and body whose paths agree on these segments get the same
    answer and leave the same store.  So [POST /posts/42] is
    [POST /posts], and the 42 is not the id of the new record. *)
Theorem unread_path_segments (s : Server) (sf : bool) (r r' : Request) :
  Method r = Method r' ->
  Body r = Body r' ->
  (take 2 (Split (Trim (Path r))) = take 2 (Split (Trim (Path r'))) ->
   handleCollection s sf r = handleCollection s sf r') /\
  (Method r = "POST" ->
   take 1 (Split (Trim (Path r))) = take 1 (Split (Trim (Path r'))) ->
   handleCollection s sf r = handleCollection s sf r').
Proof.
  intros Hm Hb. unfold handleCollection. rewrite <- Hm.
  destruct (Split_cons_inv (Trim (Path r))) as (c & rest & ->).
  destruct (Split_cons_inv (Trim (Path r'))) as (c' & rest' & ->).
  split.
  - intros Hparts. assert (c = c') as <- by (by injection Hparts).
    rewrite (handleGet_two_parts s c (c :: rest)), Hparts, <- handleGet_two_parts.
    rewrite (handlePut_two_parts s sf r c (c :: rest)), Hparts,
      <- handlePut_two_parts, (handlePut_body s sf r r' c _ Hb).
    rewrite (handleDelete_two_parts s sf c (c :: rest)), Hparts,
      <- handleDelete_two_parts.
    by rewrite (handlePost_body s sf r r' c Hb).
  - intros Hpost [= <-]. rewrite Hpost. simpl.
    by apply handlePost_body.
Qed.

Lemma unread_path_segments_witness :
  handleCollection readme_server false (POST "/posts/42" [("title", VString "x")])
  = handleCollection readme_server false (POST "/posts" [("title", VString "x")]).
Proof.
  exact (proj2 (unread_path_segments readme_server false
                  (POST "/posts/42" [("title", VString "x")])
                  (POST "/posts" [("title", VString "x")]) eq_refl eq_refl)
           eq_refl eq_refl).
Defined.

(** ** What [POST] appends *)

(** X20.  [POST] on a non-nil store, with a body that decodes to a
    record, lengthens the collection by exactly one: every record that
    was there keeps its index, and the new last element is the body's
    record, given the count-based id when it had none and left as it is
    when it had one, whatever ids the collection already holds. *)
Theorem post_appends_one_record (s : Server) (d : gmap string slice) (sf : bool)
  (r : Request) (c : string) (rest : list string) (u : gmap string value) :
  data s = Some d ->
  Method r = "POST" -> Split (Trim (Path r)) = c :: rest ->
  Body r = Decoded (Some u) ->
  let old := elems (index_slice (data s) c) in
  let new := elems (index_slice (data (fst (handleCollection s sf r))) c) in
  length new = S (length old) /\
  (forall j : nat, (j < length old)%nat -> new !! j = old !! j) /\
  new !! length old
  = Some (VMap (match u !! "id" with
                | Some _ => u
                | None => <["id" := VInt (Z.of_nat (length old) + 1)]> u
                end)).
Proof.
  intros Hd Hm Hp Hb old new. subst new.
  rewrite (handleCollection_POST _ _ _ _ _ Hp Hm).
  rewrite (handlePost_stores _ _ _ _ Hd _ _ Hb). simpl.
  rewrite (index_slice_lookup _ c _ (lookup_insert_eq _ _ _)).
  unfold append. cbn [elems]. fold old.
  split; [rewrite length_app; simpl; lia|]. split.
  - intros j Hj. by rewrite lookup_app_l.
  - rewrite lookup_app_r, Nat.sub_diag by lia. simpl.
    unfold posted, len. fold old. by destruct (u !! "id").
Qed.

Lemma post_appends_one_record_witness :
  elems (index_slice
           (data (fst (handleCollection dup_server true
                         (POST "/items" [("id", number 2)])))) "items")
  !! 3%nat
  = Some (VMap (object [("id", number 2)])).
Proof.
  exact (proj2 (proj2 (post_appends_one_record dup_server dup_db true
                         (POST "/items" [("id", number 2)]) "items" []
                         (object [("id", number 2)])
                         eq_refl eq_refl eq_refl eq_refl))).
Defined.

(** ** Identifiers handed out in a row *)

Lemma collection_path (c : string) :
  c <> EmptyString -> no_slash c = true -> Split (Trim (String "/" c)) = [c].
Proof.
  intros Hc Hcs. unfold Trim.
  rewrite <- (append_nil_r c) at 1. rewrite TrimLeft_slash_segment by done.
  rewrite append_nil_r, TrimRight_segment by done. by apply Split_segment.
Qed.

Lemma serve_cons_state (s : Server) (sf : bool) (r : Request)
  (rs : list (bool * Request)) :
  fst (serve s ((sf, r) :: rs)) = fst (serve (fst (handleCollection s sf r)) rs).
Proof.
  simpl. destruct (handleCollection s sf r) as [s1 o]. simpl.
  by destruct (serve s1 rs).
Qed.

(** X21.  Posts without ["id"] to one collection, one after the other,
    are numbered consecutively from the length of the collection plus
    one, whether or not the saves succeed: after them the collection is
    the old one followed by the posted records, the [i]-th of them
    (from 0) with the id [length + i + 1]. *)
Theorem consecutive_auto_ids (c : string) (l : list (bool * gmap string value))
  (s : Server) :
  c <> EmptyString -> no_slash c = true ->
  data s <> None ->
  Forall (fun p => p.2 !! "id" = None) l ->
  elems (index_slice
           (data (fst (serve s (map (fun p => (p.1, post_to c p.2)) l)))) c)
  = elems (index_slice (data s) c)
    ++ imap (fun i p =>
               VMap (<["id" := VInt (len (index_slice (data s) c) + Z.of_nat i + 1)]> p.2))
         l.
Proof.
  intros Hc Hcs Hd Hl. revert s Hd.
  induction Hl as [|[sf u] l Hu Hl IH]; intros s Hd.
  - simpl. by rewrite app_nil_r.
  - destruct (data_cases s) as [Hnil|[d Hsome]]; [done|].
    cbn [map fst snd]. rewrite serve_cons_state.
    rewrite (handleCollection_POST s sf (post_to c u) c [] (collection_path c Hc Hcs) eq_refl).
    rewrite (handlePost_stores s sf c d Hsome (post_to c u) u eq_refl).
    cbn [fst]. simpl in Hu.
    set (x := VMap (posted s c u)).
    set (s1 := with_data s (<[c := append (index_slice (data s) c) x]> d)).
    assert (Hs1 : index_slice (data s1) c = append (index_slice (data s) c) x).
    { apply index_slice_lookup, lookup_insert_eq. }
    rewrite (IH s1) by done. rewrite Hs1. unfold append at 1. cbn [elems].
    rewrite <- app_assoc. f_equal. rewrite imap_cons. cbn [app]. f_equal.
    + unfold x, posted. rewrite Hu. do 3 f_equal. lia.
    + apply imap_ext. intros i p _. simpl. do 3 f_equal.
      unfold len, append. cbn [elems]. rewrite length_app. simpl. lia.
Qed.

Lemma consecutive_auto_ids_witness :
  elems (index_slice
           (data (fst (serve readme_server
                         [(false, post_to "posts" (object [("title", VString "a")]));
                          (true, post_to "posts" (object [("title", VString "b")]))])))
           "posts")
  = [first_post;
     VMap (<["id" := VInt 2]> (object [("title", VString "a")]));
     VMap (<["id" := VInt 3]> (object [("title", VString "b")]))].
Proof.
  exact (consecutive_auto_ids "posts"
           [(false, object [("title", VString "a")]);
            (true, object [("title", VString "b")])]
           readme_server ltac:(discriminate) eq_refl ltac:(discriminate)
           ltac:(repeat constructor)).
Defined.

(** ** Duplicates and [DELETE] *)

Lemma findItemIndex_loop_offset (items : list value) (i : nat) (id : Z) :
  findItemIndex_loop items i id
  = match findItemIndex_loop items 0 id with
    | Some (Some n) => Some (Some (i + n)%nat)
    | other => other
    end.
Proof.
  revert i. induction items as [|v items IH]; intros i; [done|].
  rewrite !findItemIndex_loop_cons. destruct (item_id v) as [x|]; [|done].
  destruct (x =? id); [by rewrite Nat.add_0_r|].
  rewrite (IH (S i)), (IH 1%nat).
  destruct (findItemIndex_loop items 0 id) as [[n|]|]; try done.
  do 2 f_equal. lia.
Qed.

Lemma findItemIndex_loop_app_free (a b : list value) (i : nat) (id : Z) :
  id_free id a ->
  findItemIndex_loop (a ++ b) i id = findItemIndex_loop b (i + length a) id.
Proof.
  revert i. induction a as [|v a IH]; intros i Hfree.
  - simpl. by rewrite Nat.add_0_r.
  - apply Forall_cons in Hfree as [(x & Hx & Hne) Hfree].
    rewrite <- app_comm_cons, findItemIndex_loop_cons, Hx.
    apply Z.eqb_neq in Hne. rewrite Hne, (IH _ Hfree).
    f_equal. simpl. lia.
Qed.

(** X22.  Of two records with the same id, [DELETE] removes the first
    and the lookup then resolves to the second: if, behind the removed
    record, the scan would find the id [n] places on, then after the
    [DELETE] [findItemIndex] returns the removed index plus [n]. *)
Theorem delete_exposes_next_duplicate (s : Server) (sf : bool) (r : Request)
  (c tok : string) (rest : list string) (id : Z) (idx n : nat) :
  Method r = "DELETE" ->
  Split (Trim (Path r)) = c :: tok :: rest ->
  Atoi tok = Some id ->
  findItemIndex s c id = Some (Some idx) ->
  findItemIndex_loop (drop (S idx) (elems (index_slice (data s) c))) 0 id
  = Some (Some n) ->
  findItemIndex (fst (handleCollection s sf r)) c id = Some (Some (idx + n)%nat) /\
  elems (index_slice (data (fst (handleCollection s sf r))) c) !! (idx + n)%nat
  = elems (index_slice (data s) c) !! (S idx + n)%nat.
Proof.
  intros Hm Hp Htok Hf Hnext.
  destruct (findItemIndex_found _ _ _ _ Hf) as (d & items & Hd & Hc & Hidx & Hlt).
  rewrite Hd, (index_slice_lookup _ _ _ Hc) in Hnext |- *. cbn [elems] in Hnext |- *.
  rewrite (handleCollection_DELETE _ _ _ _ _ Hp Hm).
  rewrite (handleDelete_removes _ _ _ _ Hd _ _ _ _ _ Hc Htok Hf). cbn [fst].
  assert (Hlen : (idx < length items)%nat).
  { apply lookup_lt_is_Some. destruct (items !! idx); [by eexists | done]. }
  assert (Htake : length (take idx items) = idx) by (rewrite length_take; lia).
  unfold findItemIndex. cbn [data with_data].
  rewrite (index_slice_lookup _ c _ (lookup_insert_eq _ _ _)). cbn [elems]. split.
  - rewrite findItemIndex_loop_app_free by (by apply prefix_id_free).
    rewrite findItemIndex_loop_offset, Hnext, Htake. by rewrite Nat.add_0_l.
  - rewrite lookup_app_r by lia. rewrite Htake, lookup_drop.
    f_equal. lia.
Qed.

Lemma delete_exposes_next_duplicate_witness :
  findItemIndex (fst (handleCollection dup_server false (DELETE "/items/2"))) "items" 2
  = Some (Some 1%nat) /\
  elems (index_slice
           (data (fst (handleCollection dup_server false (DELETE "/items/2"))))
           "items") !! 1%nat
  = Some (VMap (tagged 2 "b")).
Proof.
  exact (delete_exposes_next_duplicate dup_server false (DELETE "/items/2")
           "items" "2" [] 2 1%nat 0%nat eq_refl eq_refl eq_refl eq_refl eq_refl).
Defined.

(** ** Identifiers with a fraction *)

(** X23.  The lookups compare [int(f)]: a [float64] id is read with its
    fraction cut off, towards zero.  For the number [m / 2^k] with
    [k > 0] whose integer part [q] fits an [int], the id read is [q] for
    the positive and [-q] for the negative number, where
    [q * 2^k <= m < (q + 1) * 2^k].  So a record stored with the id 1.5
    is the record [/{c}/1] addresses. *)
Theorem int_of_float64_truncates (m : positive) (k : Z) :
  0 < k ->
  Z.pos m / 2 ^ k <= max_int ->
  let q := Z.pos m / 2 ^ k in
  int_of_float64 (S754_finite false m (- k)) = q /\
  int_of_float64 (S754_finite true m (- k)) = - q /\
  q * 2 ^ k <= Z.pos m < (q + 1) * 2 ^ k.
Proof.
  intros Hk Hmax q.
  assert (Hpow : 0 < 2 ^ k) by (apply Z.pow_pos_nonneg; lia).
  assert (Hq : 0 <= q) by (apply Z.div_pos; lia).
  assert (Hsh : Z.shiftl (Z.pos m) (- k) = q).
  { rewrite Z.shiftl_opp_r. unfold q. apply Z.shiftr_div_pow2. lia. }
  unfold int_of_float64. rewrite Hsh.
  assert (Hin : (min_int <=? q) && (q <=? max_int) = true).
  { apply andb_true_iff. split; apply Z.leb_le; unfold min_int, max_int in *; lia. }
  assert (Hin' : (min_int <=? - q) && (- q <=? max_int) = true).
  { apply andb_true_iff. split; apply Z.leb_le; unfold min_int, max_int in *; lia. }
  rewrite Hin, Hin'. split; [done|]. split; [done|].
  unfold q. pose proof (Z.div_mod (Z.pos m) (2 ^ k)) as Hdm.
  pose proof (Z.mod_pos_bound (Z.pos m) (2 ^ k) Hpow) as Hmod. nia.
Qed.

Lemma int_of_float64_truncates_witness :
  item_id (VMap (object [("id", VFloat64 (S754_finite false 3 (- 1)))])) = Some 1 /\
  item_id (VMap (object [("id", VFloat64 (S754_finite true 3 (- 1)))])) = Some (- 1).
Proof.
  destruct (int_of_float64_truncates 3 1 ltac:(lia) ltac:(vm_compute; discriminate))
    as (Hpos & Hneg & _).
  split.
  - exact (f_equal Some Hpos).
  - exact (f_equal Some Hneg).
Defined.

(** ** The lookup defect in replace, delete and duplicates (claims C4, C5, C8) *)

(** C4, at the code: on the README's store the README's [PUT /posts/1]
    is answered 200 and leaves post 1 with its id stored as a Go [int];
    a second [PUT /posts/1], for the record that exists under that id,
    panics in [findItemIndex]: nothing is replaced and no response is
    written. *)
Theorem C4_second_put_panics :
  serve readme_server
    [(false, PUT "/posts/1" [("title", VString "Updated Post")]);
     (false, PUT "/posts/1" [("title", VString "Again")])]
  = (with_data readme_server
       (<["posts" := Slice [VMap (object [("id", VInt 1);
                                          ("title", VString "Updated Post")])] ]>
          readme_db),
     [Respond {| status := StatusOK;
                 body := EncodedItem (object [("id", VInt 1);
                                              ("title", VString "Updated Post")]) |};
      Panicked]).
Proof. vm_compute. reflexivity. Qed.

(** C5, at the code: on the records 1, 2, 3, after [PUT /items/1] has
    replaced record 1 (its id now a Go [int]), [DELETE /items/2] panics
    in [findItemIndex] on record 1 before it reaches record 2: record 2,
    whose id is still the [float64] of the file, is not removed and no
    response is written. *)
Theorem C5_delete_behind_put_panics :
  serve items_server
    [(false, PUT "/items/1" [("note", VString "x")]);
     (false, DELETE "/items/2")]
  = (with_data items_server
       {[ "items" := Slice [VMap (object [("id", VInt 1); ("note", VString "x")]);
                            record 2; record 3] ]},
     [Respond {| status := StatusOK;
                 body := EncodedItem (object [("id", VInt 1); ("note", VString "x")]) |};
      Panicked]).
Proof. vm_compute. reflexivity. Qed.

(** C8, at the code: with the id 2 held by two records, after
    [PUT /items/2] has replaced the first of them (its id now a Go
    [int]), the lookups of id 2 do not resolve to the first occurrence,
    nor to any: [findItemIndex] panics, and so do [GET /items/2] and
    [DELETE /items/2]; both records stay. *)
Theorem C8_duplicates_after_put_panic :
  serve dup_server
    [(false, PUT "/items/2" [("tag", VString "c")]);
     (false, GET "/items/2");
     (false, DELETE "/items/2")]
  = (with_data dup_server
       {[ "items" := Slice [record 1;
                            VMap (object [("id", VInt 2); ("tag", VString "c")]);
                            VMap (tagged 2 "b")] ]},
     [Respond {| status := StatusOK;
                 body := EncodedItem (object [("id", VInt 2); ("tag", VString "c")]) |};
      Panicked;
      Panicked]) /\
  findItemIndex
    (fst (handleCollection dup_server false (PUT "/items/2" [("tag", VString "c")])))
    "items" 2
  = None.
Proof. split; vm_compute; reflexivity. Qed.

(** ** Start-up on documents that are not an object of arrays (claim C9) *)



(** C9, at the code: the file [db.json] holds the document [null], which
    is not an object, and [json.Unmarshal] takes it without error:
    [NewServer] returns a server, its store the nil map, [Run] goes on to
    serve, and the first [POST] panics on the write into the nil map. *)
Theorem C9_null_document_starts :
  NewServer disk_with_null (Unmarshal parse_null_or_braces) "db.json"
  = inr {| data := None; filename := "db.json" |} /\
  Run disk_with_null (Unmarshal parse_null_or_braces) "db.json"
  = inr {| data := None; filename := "db.json" |} /\
  handleCollection {| data := None; filename := "db.json" |} false
    (POST "/posts" [("title", VString "x")])
  = ({| data := None; filename := "db.json" |}, Panicked).
Proof. repeat split; reflexivity. Qed.


